(** * The JNI bridge of the Whisper TFLite engine

    A shallow embedding of [app/src/main/cpp/TFLiteEngineJNI.cpp]: the five
    exported functions of [WhisperEngineNative], written over a small
    state monad with an outcome for undefined behaviour.  The state holds
    the native heap of [TFLiteEngine] objects, the managed strings and
    float arrays of the calling runtime, the buffers the JNI environment
    lends out, and the chronological trace of every call the bridge makes.

    [TFLiteEngine] itself ([TFLiteEngine.h]) and the JNI environment are
    not part of the file; the engine is an interface ([EngineModel]), the
    allocator too ([Allocator]), and the JNI functions follow the JNI
    specification.  Whether the JNI environment and the C++ runtime find
    memory for a request, and what [NewStringUTF] makes of bytes that are
    not modified UTF-8, is left to a third interface ([Platform]). *)
From Stdlib Require Import ZArith Ascii String.
From stdpp Require Import gmap strings list.

Local Open Scope Z_scope.

(** ** JNI scalar types *)

(** [jlong], [jint], [jsize] and [jboolean] are machine integers, managed
    references ([jstring], [jfloatArray]) and native pointers are
    addresses; all are carried as [Z]. *)
Abbreviation jlong := Z (only parsing).
Abbreviation jint := Z (only parsing).
Abbreviation jsize := Z (only parsing).
Abbreviation jboolean := Z (only parsing).
Abbreviation jstring := Z (only parsing).
Abbreviation jfloatArray := Z (only parsing).
Abbreviation pointer := Z (only parsing).

(** A sample is the bit pattern of an IEEE-754 binary32 value: the bridge
    moves samples around and never computes with them. *)
Definition jfloat : Type := Z.

Definition JNI_TRUE : jboolean := 1.
Definition JNI_FALSE : jboolean := 0.
Definition JNI_COMMIT : jint := 1.
Definition JNI_ABORT : jint := 2.

(** What the managed caller passes for a Java [boolean]. *)
Definition jboolean_of_bool (b : bool) : jboolean :=
  if b then JNI_TRUE else JNI_FALSE.

(** [static_cast<bool>(isMultilingual)] *)
Definition jboolean_to_bool (b : jboolean) : bool := negb (b =? 0).

(** [reinterpret_cast<jlong>(engine)]: the 64 bits of the address read as
    a signed two's complement number. *)
Definition ptr_to_jlong (p : pointer) : jlong :=
  if p <? 2 ^ 63 then p else p - 2 ^ 64.

(** [reinterpret_cast<TFLiteEngine *>(nativePtr)] *)
Definition jlong_to_ptr (h : jlong) : pointer := h mod 2 ^ 64.

(** ** C strings *)

Definition NUL : ascii := Ascii.zero.

Fixpoint nul_free (s : string) : bool :=
  match s with
  | EmptyString => true
  | String c r => negb (Ascii.eqb c NUL) && nul_free r
  end.

(** The bytes of [s] in front of its first NUL (all of [s] when it has
    none). *)
Fixpoint nul_prefix (s : string) : string :=
  match s with
  | EmptyString => EmptyString
  | String c r => if Ascii.eqb c NUL then EmptyString else String c (nul_prefix r)
  end.

(** [std::string::c_str()], and the buffer [GetStringUTFChars] hands out:
    the bytes followed by a terminator. *)
Fixpoint c_str (s : string) : string :=
  match s with
  | EmptyString => String NUL EmptyString
  | String c r => String c (c_str r)
  end.

(** Reading through a [const char *]: the bytes up to the terminator.  A
    buffer without terminator is read past its end. *)
Fixpoint read_c_str (buf : string) : option string :=
  match buf with
  | EmptyString => None
  | String c r =>
      if Ascii.eqb c NUL then Some EmptyString
      else match read_c_str r with
           | Some s => Some (String c s)
           | None => None
           end
  end.

(** ** Modified UTF-8 *)

(** A managed string is a sequence of UTF-16 code units; the JNI
    environment hands it out, and takes it in, in modified UTF-8: one
    byte for U+0001 to U+007F, two bytes for U+0000 and for U+0080 to
    U+07FF, three bytes for U+0800 to U+FFFF. *)

Definition byte_of (n : Z) : ascii := ascii_of_N (Z.to_N n).
Definition byte_value (b : ascii) : Z := Z.of_N (N_of_ascii b).

(** The bytes of the code unit [u], in front of [rest]. *)
Definition encode_unit (u : Z) (rest : string) : string :=
  if (1 <=? u) && (u <=? 127) then String (byte_of u) rest
  else if u <=? 2047 then
    String (byte_of (192 + u / 64)) (String (byte_of (128 + u mod 64)) rest)
  else
    String (byte_of (224 + u / 4096))
      (String (byte_of (128 + (u / 64) mod 64))
         (String (byte_of (128 + u mod 64)) rest)).

Fixpoint mutf8_encode (units : list Z) : string :=
  match units with
  | [] => EmptyString
  | u :: r => encode_unit u (mutf8_encode r)
  end.

Definition code_units (units : list Z) : Prop :=
  Forall (fun u => 0 <= u < 65536) units.

Definition continuation (n : Z) : bool := (128 <=? n) && (n <=? 191).

(** The code units a byte string stands for; [None] when the bytes are
    not modified UTF-8: a byte that starts nothing, a sequence cut short,
    a code unit written longer than need be, a four-byte UTF-8 sequence. *)
Fixpoint mutf8_decode (s : string) : option (list Z) :=
  match s with
  | EmptyString => Some []
  | String b1 r1 =>
      let n1 := byte_value b1 in
      if (1 <=? n1) && (n1 <=? 127) then
        match mutf8_decode r1 with
        | Some units => Some (n1 :: units)
        | None => None
        end
      else if (192 <=? n1) && (n1 <=? 223) then
        match r1 with
        | String b2 r2 =>
            let n2 := byte_value b2 in
            let u := (n1 - 192) * 64 + (n2 - 128) in
            if continuation n2 && ((u =? 0) || (128 <=? u)) then
              match mutf8_decode r2 with
              | Some units => Some (u :: units)
              | None => None
              end
            else None
        | EmptyString => None
        end
      else if (224 <=? n1) && (n1 <=? 239) then
        match r1 with
        | String b2 (String b3 r3) =>
            let n2 := byte_value b2 in
            let n3 := byte_value b3 in
            let u := (n1 - 224) * 4096 + (n2 - 128) * 64 + (n3 - 128) in
            if continuation n2 && continuation n3 && (2048 <=? u) then
              match mutf8_decode r3 with
              | Some units => Some (u :: units)
              | None => None
              end
            else None
        | _ => None
        end
      else None
  end.

(** [NewStringUTF] as the JNI specification has it: the string made is
    the one the bytes stand for; it is kept as its modified UTF-8 bytes. *)
Definition decoding_new_string_utf (s : string) : option string :=
  match mutf8_decode s with
  | Some units => Some (mutf8_encode units)
  | None => None
  end.

(** ** The external collaborators *)

(** The methods of [TFLiteEngine] the bridge calls, as functions on the
    state of one engine object.  [None] stands for a call that does not
    return (a crash inside the engine).  The files the engine reads are
    part of the functions.  State that the engine library would share
    between its objects is outside this interface. *)
Class EngineModel := {
  engine : Type;
  (** [TFLiteEngine()] *)
  eng_new : engine;
  (** [int loadModel(const char *modelPath, bool isMultilingual)] *)
  eng_loadModel : engine -> string -> bool -> option (engine * Z);
  (** [void freeModel()] *)
  eng_freeModel : engine -> option engine;
  (** [std::string transcribeBuffer(std::vector<float> samples)] *)
  eng_transcribeBuffer : engine -> list jfloat -> option (engine * string);
  (** [std::string transcribeFile(const char *waveFile)] *)
  eng_transcribeFile : engine -> string -> option (engine * string);
}.

(** [operator new] for a [TFLiteEngine]: given the addresses of the live
    objects it yields the address of fresh storage, or [None] when memory
    is exhausted ([std::bad_alloc]). *)
Class Allocator := {
  operator_new : gset Z -> option Z;
  operator_new_fresh : forall live a, operator_new live = Some a -> a ∉ live;
  operator_new_range : forall live a, operator_new live = Some a -> 0 < a < 2 ^ 64;
}.

(** A request for memory, made by a JNI call that hands out a buffer or
    creates a string, or by the constructor of the sample vector. *)
Inductive Request : Type :=
| ReqStringUTFChars (str : jstring)
| ReqFloatArrayElements (array : jfloatArray)
| ReqVector (count : jsize)
| ReqNewStringUTF (bytes : string).

(** ** Events *)

(** One constructor per call the bridge makes into the C++ runtime, the
    engine or the JNI environment, with its arguments and its result.
    [EvRefused] is a JNI call that found no memory: it returned NULL and
    left an [OutOfMemoryError] pending in the calling thread. *)
Inductive Event : Type :=
| EvNew (p : pointer)
| EvDelete (p : pointer)
| EvLoadModel (this : pointer) (modelPath : string) (isMultilingual : bool) (result : Z)
| EvFreeModel (this : pointer)
| EvTranscribeBuffer (this : pointer) (samples : list jfloat) (result : string)
| EvTranscribeFile (this : pointer) (waveFile : string) (result : string)
| EvGetStringUTFChars (str : jstring) (chars : pointer)
| EvReleaseStringUTFChars (str : jstring) (chars : pointer)
| EvGetArrayLength (array : jfloatArray) (len : jsize)
| EvGetFloatArrayElements (array : jfloatArray) (elems : pointer)
| EvVectorCopy (first : pointer) (count : jsize) (copied : list jfloat)
| EvReleaseFloatArrayElements (array : jfloatArray) (elems : pointer) (mode : jint)
| EvNewStringUTF (bytes : string) (str : jstring)
| EvRefused (request : Request).

(** A borrow is taken by the two [Get...] calls and given back by the two
    [Release...] calls. *)
Definition acquires (str_or_array chars_or_elems : Z) (e : Event) : bool :=
  match e with
  | EvGetStringUTFChars s p => (s =? str_or_array) && (p =? chars_or_elems)
  | EvGetFloatArrayElements a p => (a =? str_or_array) && (p =? chars_or_elems)
  | _ => false
  end.

Definition releases (str_or_array chars_or_elems : Z) (e : Event) : bool :=
  match e with
  | EvReleaseStringUTFChars s p => (s =? str_or_array) && (p =? chars_or_elems)
  | EvReleaseFloatArrayElements a p mode =>
      (a =? str_or_array) && (p =? chars_or_elems) && negb (mode =? JNI_COMMIT)
  | _ => false
  end.

Definition is_acquire (e : Event) : bool :=
  match e with
  | EvGetStringUTFChars _ _ | EvGetFloatArrayElements _ _ => true
  | _ => false
  end.

Definition is_release (e : Event) : bool :=
  match e with
  | EvReleaseStringUTFChars _ _ => true
  | EvReleaseFloatArrayElements _ _ mode => negb (mode =? JNI_COMMIT)
  | _ => false
  end.

Fixpoint count_events (f : Event -> bool) (t : list Event) : nat :=
  match t with
  | [] => O
  | e :: r => if f e then S (count_events f r) else count_events f r
  end.

(** [e1] happens before [e2] in [t]. *)
Definition happens_before (e1 e2 : Event) (t : list Event) : Prop :=
  exists t1 t2 t3, t = t1 ++ e1 :: t2 ++ e2 :: t3.

(** What the bridge cannot decide.  [grants t r] tells whether, after the
    calls [t], the request [r] finds memory.  [new_string_utf s] is the
    managed string [NewStringUTF] makes of the bytes [s], as the modified
    UTF-8 bytes of that string, or [None] where the call does not return;
    the JNI specification fixes it for modified UTF-8 only, where the
    string made has exactly these bytes. *)
Class Platform := {
  grants : list Event -> Request -> bool;
  new_string_utf : string -> option string;
  new_string_utf_modified_utf8 :
    forall units, code_units units ->
      new_string_utf (mutf8_encode units) = Some (mutf8_encode units);
}.

(** An address, or a reference, that is not null and not in use. *)
Definition unused_nonnull {V} (used : gmap Z V) : Z := fresh ({[0]} ∪ dom used).

Section Bridge.
Context {E : EngineModel} {A : Allocator} {P : Platform}.

(** ** State *)

Record World : Type := mkWorld {
  (** live [TFLiteEngine] objects, by address *)
  native_heap : gmap Z engine;
  (** managed strings, by reference, as their modified UTF-8 bytes *)
  jstrings : gmap Z string;
  (** managed float arrays, by reference *)
  jfloatArrays : gmap Z (list jfloat);
  (** buffers lent by [GetStringUTFChars]: address to owner and bytes *)
  utf_chars : gmap Z (Z * string);
  (** buffers lent by [GetFloatArrayElements]: address to owner and
      elements *)
  float_elems : gmap Z (Z * list jfloat);
  (** every call made so far, oldest first *)
  trace : list Event;
}.

(** Modified UTF-8 encodes U+0000 in two bytes, so the bytes of a
    managed string hold no NUL. *)
Definition modified_utf8 (w : World) : Prop :=
  map_Forall (fun _ bytes => nul_free bytes = true) (jstrings w).

(** Every live engine sits at an address [operator new] can return: not
    null, and within the 64 bits of a pointer. *)
Definition allocated_addresses (w : World) : Prop :=
  forall p : Z, is_Some (native_heap w !! p) -> 0 < p < 2 ^ 64.

Definition set_native_heap (f : gmap Z engine -> gmap Z engine) (w : World) : World :=
  mkWorld (f (native_heap w)) (jstrings w) (jfloatArrays w) (utf_chars w)
          (float_elems w) (trace w).
Definition set_jstrings (f : gmap Z string -> gmap Z string) (w : World) : World :=
  mkWorld (native_heap w) (f (jstrings w)) (jfloatArrays w) (utf_chars w)
          (float_elems w) (trace w).
Definition set_jfloatArrays (f : gmap Z (list jfloat) -> gmap Z (list jfloat))
    (w : World) : World :=
  mkWorld (native_heap w) (jstrings w) (f (jfloatArrays w)) (utf_chars w)
          (float_elems w) (trace w).
Definition set_utf_chars (f : gmap Z (Z * string) -> gmap Z (Z * string))
    (w : World) : World :=
  mkWorld (native_heap w) (jstrings w) (jfloatArrays w) (f (utf_chars w))
          (float_elems w) (trace w).
Definition set_float_elems
    (f : gmap Z (Z * list jfloat) -> gmap Z (Z * list jfloat)) (w : World) : World :=
  mkWorld (native_heap w) (jstrings w) (jfloatArrays w) (utf_chars w)
          (f (float_elems w)) (trace w).
Definition log (e : Event) (w : World) : World :=
  mkWorld (native_heap w) (jstrings w) (jfloatArrays w) (utf_chars w)
          (float_elems w) (trace w ++ [e]).

(** ** The monad of native code *)

(** A native function returns normally with a value and a new state,
    has undefined behaviour, or terminates the process. *)
Inductive Outcome (R : Type) : Type :=
| Done (r : R) (w : World)
| Undefined
| Abort.
Global Arguments Done {R} r w.
Global Arguments Undefined {R}.
Global Arguments Abort {R}.

Definition Native (R : Type) : Type := World -> Outcome R.

Definition ret {R} (r : R) : Native R := fun w => Done r w.

Definition bind {R S} (c : Native R) (k : R -> Native S) : Native S :=
  fun w =>
    match c w with
    | Done r w' => k r w'
    | Undefined => Undefined
    | Abort => Abort
    end.

Notation "x <~ c ;; k" := (bind c (fun x => k))
  (at level 100, c at next level, right associativity).
Notation "c ;;; k" := (bind c (fun _ => k))
  (at level 100, right associativity).

(** ** The C++ runtime *)

(** [new TFLiteEngine()]: an uncaught [std::bad_alloc] terminates the
    process. *)
Definition new_TFLiteEngine : Native pointer := fun w =>
  match operator_new (dom (native_heap w)) with
  | Some p => Done p (log (EvNew p) (set_native_heap (insert p eng_new) w))
  | None => Abort
  end.

(** [delete engine] *)
Definition delete_TFLiteEngine (p : pointer) : Native unit := fun w =>
  match native_heap w !! p with
  | Some _ => Done tt (log (EvDelete p) (set_native_heap (delete p) w))
  | None => Undefined
  end.

(** [std::vector<float>(first, first + count)]: an empty range is neither
    stored nor read; otherwise [first + count] has to stay within the
    buffer at [first], storage for [count] elements is allocated, where an
    uncaught [std::bad_alloc] terminates the process, and the [count]
    elements of the buffer are copied. *)
Definition vector_from_range (first : pointer) (count : jsize)
    : Native (list jfloat) := fun w =>
  if count <? 0 then Undefined
  else if count =? 0 then Done [] (log (EvVectorCopy first 0 []) w)
  else if first =? 0 then Undefined
  else
    match float_elems w !! first with
    | Some (_, elems) =>
        if count <=? Z.of_nat (length elems) then
          if grants (trace w) (ReqVector count) then
            let v := take (Z.to_nat count) elems in
            Done v (log (EvVectorCopy first count v) w)
          else Abort
        else Undefined
    | None => Undefined
    end.

(** ** The engine, called through a pointer *)

(** [engine->loadModel(modelPath, isMultilingual)] *)
Definition TFLiteEngine_loadModel (this modelPath : pointer) (isMultilingual : bool)
    : Native Z := fun w =>
  if modelPath =? 0 then Undefined
  else
    match native_heap w !! this, utf_chars w !! modelPath with
    | Some e, Some (_, buf) =>
        match read_c_str buf with
        | Some path =>
            match eng_loadModel e path isMultilingual with
            | Some (e', result) =>
                Done result
                  (log (EvLoadModel this path isMultilingual result)
                     (set_native_heap (insert this e') w))
            | None => Undefined
            end
        | None => Undefined
        end
    | _, _ => Undefined
    end.

(** [engine->freeModel()] *)
Definition TFLiteEngine_freeModel (this : pointer) : Native unit := fun w =>
  match native_heap w !! this with
  | Some e =>
      match eng_freeModel e with
      | Some e' =>
          Done tt (log (EvFreeModel this) (set_native_heap (insert this e') w))
      | None => Undefined
      end
  | None => Undefined
  end.

(** [engine->transcribeBuffer(sampleVector)] *)
Definition TFLiteEngine_transcribeBuffer (this : pointer) (samples : list jfloat)
    : Native string := fun w =>
  match native_heap w !! this with
  | Some e =>
      match eng_transcribeBuffer e samples with
      | Some (e', result) =>
          Done result
            (log (EvTranscribeBuffer this samples result)
               (set_native_heap (insert this e') w))
      | None => Undefined
      end
  | None => Undefined
  end.

(** [engine->transcribeFile(waveFile)] *)
Definition TFLiteEngine_transcribeFile (this waveFile : pointer)
    : Native string := fun w =>
  if waveFile =? 0 then Undefined
  else
    match native_heap w !! this, utf_chars w !! waveFile with
    | Some e, Some (_, buf) =>
        match read_c_str buf with
        | Some path =>
            match eng_transcribeFile e path with
            | Some (e', result) =>
                Done result
                  (log (EvTranscribeFile this path result)
                     (set_native_heap (insert this e') w))
            | None => Undefined
            end
        | None => Undefined
        end
    | _, _ => Undefined
    end.

(** ** The JNI environment *)

(** [env->GetStringUTFChars(str, nullptr)]: a new buffer with the
    modified UTF-8 bytes of the string and a terminator, or NULL when
    there is no memory for it. *)
Definition GetStringUTFChars (str : jstring) : Native pointer := fun w =>
  match jstrings w !! str with
  | Some bytes =>
      if grants (trace w) (ReqStringUTFChars str) then
        let p := unused_nonnull (utf_chars w) in
        Done p (log (EvGetStringUTFChars str p)
                  (set_utf_chars (insert p (str, c_str bytes)) w))
      else Done 0 (log (EvRefused (ReqStringUTFChars str)) w)
  | None => Undefined
  end.

(** [env->ReleaseStringUTFChars(str, chars)] *)
Definition ReleaseStringUTFChars (str : jstring) (chars : pointer)
    : Native unit := fun w =>
  if chars =? 0 then Undefined
  else
    match utf_chars w !! chars with
    | Some (owner, _) =>
        if owner =? str then
          Done tt (log (EvReleaseStringUTFChars str chars)
                     (set_utf_chars (delete chars) w))
        else Undefined
    | None => Undefined
    end.

(** [env->GetArrayLength(array)] *)
Definition GetArrayLength (array : jfloatArray) : Native jsize := fun w =>
  match jfloatArrays w !! array with
  | Some elems =>
      let n := Z.of_nat (length elems) in
      Done n (log (EvGetArrayLength array n) w)
  | None => Undefined
  end.

(** [env->GetFloatArrayElements(array, nullptr)]: a buffer with the
    elements of the array, or NULL when there is no memory for it. *)
Definition GetFloatArrayElements (array : jfloatArray) : Native pointer := fun w =>
  match jfloatArrays w !! array with
  | Some elems =>
      if grants (trace w) (ReqFloatArrayElements array) then
        let p := unused_nonnull (float_elems w) in
        Done p (log (EvGetFloatArrayElements array p)
                  (set_float_elems (insert p (array, elems)) w))
      else Done 0 (log (EvRefused (ReqFloatArrayElements array)) w)
  | None => Undefined
  end.

(** [env->ReleaseFloatArrayElements(array, elems, mode)]: mode [0]
    copies the buffer back and frees it, [JNI_COMMIT] copies back and
    keeps it, [JNI_ABORT] frees it without copying back. *)
Definition ReleaseFloatArrayElements (array : jfloatArray) (elems : pointer)
    (mode : jint) : Native unit := fun w =>
  if elems =? 0 then Undefined
  else
    match float_elems w !! elems with
    | Some (owner, buf) =>
        if owner =? array then
          let w1 :=
            if mode =? JNI_ABORT then w
            else set_jfloatArrays (insert array buf) w in
          let w2 :=
            if mode =? JNI_COMMIT then w1
            else set_float_elems (delete elems) w1 in
          Done tt (log (EvReleaseFloatArrayElements array elems mode) w2)
        else Undefined
    | None => Undefined
    end.

(** [env->NewStringUTF(bytes)]: a new managed string from the bytes in
    front of the terminator, read as modified UTF-8; NULL when there is
    no memory for the string. *)
Definition NewStringUTF (bytes : string) : Native jstring := fun w =>
  match read_c_str bytes with
  | Some s =>
      match new_string_utf s with
      | Some made =>
          if grants (trace w) (ReqNewStringUTF s) then
            let r := unused_nonnull (jstrings w) in
            Done r (log (EvNewStringUTF s r) (set_jstrings (insert r made) w))
          else Done 0 (log (EvRefused (ReqNewStringUTF s)) w)
      | None => Undefined
      end
  | None => Undefined
  end.

(** ** The exported functions *)

Definition Java_com_proactiveagentv2_engine_WhisperEngineNative_createTFLiteEngine
    : Native jlong :=
  engine <~ new_TFLiteEngine ;;
  ret (ptr_to_jlong engine).

Definition Java_com_proactiveagentv2_engine_WhisperEngineNative_loadModel
    (nativePtr : jlong) (modelPath : jstring) (isMultilingual : jboolean)
    : Native jint :=
  let engine := jlong_to_ptr nativePtr in
  modelPathStr <~ GetStringUTFChars modelPath ;;
  result <~ TFLiteEngine_loadModel engine modelPathStr
              (jboolean_to_bool isMultilingual) ;;
  ReleaseStringUTFChars modelPath modelPathStr ;;;
  ret result.

Definition Java_com_proactiveagentv2_engine_WhisperEngineNative_freeModel
    (nativePtr : jlong) : Native unit :=
  let engine := jlong_to_ptr nativePtr in
  TFLiteEngine_freeModel engine ;;;
  delete_TFLiteEngine engine.

Definition Java_com_proactiveagentv2_engine_WhisperEngineNative_transcribeBuffer
    (nativePtr : jlong) (samples : jfloatArray) : Native jstring :=
  let engine := jlong_to_ptr nativePtr in
  length <~ GetArrayLength samples ;;
  samplesPtr <~ GetFloatArrayElements samples ;;
  sampleVector <~ vector_from_range samplesPtr length ;;
  ReleaseFloatArrayElements samples samplesPtr JNI_ABORT ;;;
  result <~ TFLiteEngine_transcribeBuffer engine sampleVector ;;
  NewStringUTF (c_str result).

Definition Java_com_proactiveagentv2_engine_WhisperEngineNative_transcribeFile
    (nativePtr : jlong) (waveFile : jstring) : Native jstring :=
  let engine := jlong_to_ptr nativePtr in
  waveFileStr <~ GetStringUTFChars waveFile ;;
  result <~ TFLiteEngine_transcribeFile engine waveFileStr ;;
  ReleaseStringUTFChars waveFile waveFileStr ;;;
  NewStringUTF (c_str result).

(** ** Borrowed JNI resources *)

(** Between [w] and [w'] one resource was borrowed and the same one
    given back: the calls made in between hold one acquisition and one
    release, the release comes after the acquisition and names its
    resource and buffer, and the buffers lent out are the same before
    and after. *)
Definition returns_borrows (w w' : World) : Prop :=
  exists (delta : list Event) (acquire release : Event) (resource buffer : Z),
    trace w' = trace w ++ delta /\
    count_events is_acquire delta = 1%nat /\
    count_events is_release delta = 1%nat /\
    acquires resource buffer acquire = true /\
    releases resource buffer release = true /\
    happens_before acquire release delta /\
    utf_chars w' = utf_chars w /\
    float_elems w' = float_elems w.

End Bridge.

(** ** A stub engine and a small allocator

    Concrete collaborators on which the bridge can be run: an engine that
    loads the models of a given list and answers every transcription with
    a fixed text, and an allocator with four slots. *)

(** The state of the stub: whether a model is loaded. *)
Definition stub_engine (models : list string) (text : string) : EngineModel := {|
  engine := bool;
  eng_new := false;
  eng_loadModel := fun _ path _ =>
    if bool_decide (path ∈ models) then Some (true, 0) else Some (false, -1);
  eng_freeModel := fun _ => Some false;
  eng_transcribeBuffer := fun loaded _ => if loaded then Some (true, text) else None;
  eng_transcribeFile := fun loaded _ => if loaded then Some (true, text) else None;
|}.

Definition slots : list Z := [4096; 4128; 4160; 4192].

Definition first_free_slot (live : gset Z) : option Z :=
  snd <$> list_find (fun p => p ∉ live) slots.

(** The four-slot allocator: an address it returns is one of the slots,
    and one that is not live. *)
Definition slot_allocator : Allocator.
Proof.
  refine {| operator_new := first_free_slot |}.
  - intros live a H. unfold first_free_slot in H.
    apply fmap_Some in H as ([i p] & Hf & ->).
    by apply list_find_Some in Hf as (_ & ? & _).
  - intros live a H. unfold first_free_slot in H.
    apply fmap_Some in H as ([i p] & Hf & ->).
    apply list_find_Some in Hf as (Hi & _ & _).
    apply list_elem_of_lookup_2 in Hi. unfold slots in Hi.
    cbn [snd]. set_unfold. lia.
Defined.

(** ** Platforms *)

(** Memory never runs out, and [NewStringUTF] takes the bytes it is given
    as the bytes of the string it makes. *)
Definition ample_platform : Platform := {|
  grants := fun _ _ => true;
  new_string_utf := Some;
  new_string_utf_modified_utf8 := fun _ _ => eq_refl;
|}.

(** The requests in [refused] find no memory; all else is as on
    [ample_platform]. *)
Definition refusing_platform (refused : Request -> bool) : Platform := {|
  grants := fun _ r => negb (refused r);
  new_string_utf := Some;
  new_string_utf_modified_utf8 := fun _ _ => eq_refl;
|}.

(** Memory never runs out, and [NewStringUTF] decodes modified UTF-8: the
    string made is the one the bytes stand for, and for other bytes the
    call does not return.  The platform is lawful because the decoder reads
    back what [mutf8_encode] writes, which [decoded] says. *)
Definition strict_platform
    (decoded : forall units, code_units units ->
       decoding_new_string_utf (mutf8_encode units) = Some (mutf8_encode units)) :
  Platform := {|
  grants := fun _ _ => true;
  new_string_utf := decoding_new_string_utf;
  new_string_utf_modified_utf8 := decoded;
|}.



Definition is_ReqNewStringUTF (r : Request) : bool :=
  match r with ReqNewStringUTF _ => true | _ => false end.

(** The model file the stub engine can load. *)
Definition tiny_model : string := "/sdcard/whisper-tiny.tflite".

Definition on_stub_disk (path : string) : bool := bool_decide (path ∈ [tiny_model]).

(** A process in which one engine lives at the first slot, with its model
    loaded, and the managed side holds three strings and two arrays. *)
Definition stub_world (text : string) : @World (stub_engine [tiny_model] text) :=
  mkWorld (E := stub_engine [tiny_model] text)
    ({[4096 := true]} : gmap Z bool)
    ({[1 := tiny_model; 2 := "/sdcard/jfk.wav"; 3 := "/sdcard/missing.tflite"]}
       : gmap Z string)
    ({[10 := [1056964608; 3204448256; 0]; 11 := []]} : gmap Z (list jfloat))
    ∅ ∅ [].

(** The same process before any engine is created. *)
Definition stub_start (text : string) : @World (stub_engine [tiny_model] text) :=
  mkWorld (E := stub_engine [tiny_model] text)
    (∅ : gmap Z bool) (jstrings (stub_world text)) (jfloatArrays (stub_world text))
    ∅ ∅ [].

(** One use of the bridge from beginning to end: create an engine, load
    the model, transcribe an empty array, free the engine. *)
Definition stub_session (text : string)
    : Native (E := stub_engine [tiny_model] text) (Z * Z * Z) :=
  bind (Java_com_proactiveagentv2_engine_WhisperEngineNative_createTFLiteEngine
          (A := slot_allocator))
    (fun handle =>
  bind (Java_com_proactiveagentv2_engine_WhisperEngineNative_loadModel
          (P := ample_platform) handle 1 JNI_FALSE)
    (fun status =>
  bind (Java_com_proactiveagentv2_engine_WhisperEngineNative_transcribeBuffer
          (P := ample_platform) handle 11)
    (fun str =>
  bind (Java_com_proactiveagentv2_engine_WhisperEngineNative_freeModel handle)
    (fun _ => ret (handle, status, str))))).

(** A process with two engines, the first one loaded. *)
Definition stub_pair (text : string) : @World (stub_engine [tiny_model] text) :=
  mkWorld (E := stub_engine [tiny_model] text)
    ({[4096 := true; 4128 := false]} : gmap Z bool)
    (jstrings (stub_world text)) (jfloatArrays (stub_world text))
    ∅ ∅ [].

(** A text with a NUL in the middle. *)
Definition text_with_nul : string :=
  String "a" (String "b" (String NUL (String "c" (String "d" EmptyString)))).

(** A text with U+1F600 in UTF-8, the four bytes F0 9F 98 80, after the
    letter a: well-formed UTF-8, and not modified UTF-8. *)
Definition text_with_emoji : string :=
  String "a" (String (byte_of 240) (String (byte_of 159)
    (String (byte_of 152) (String (byte_of 128) EmptyString)))).

(** ** The engine's side of the contract *)

(** Modelled from the spec: [TFLiteEngine::loadModel], whose source is not
    in the repository fragment.  "load() with a nonexistent model path
    returns a nonzero status": for a path at which [on_disk] finds no
    model the routine returns, and its status is not 0. *)
Definition load_rejects_missing_model `{EngineModel} (on_disk : string -> bool) : Prop :=
  forall (e : engine) (path : string) (isMultilingual : bool),
    on_disk path = false ->
    exists e' status,
      eng_loadModel e path isMultilingual = Some (e', status) /\ status <> 0.


(** ** C strings and casts *)

Lemma read_c_str_c_str (s : string) : read_c_str (c_str s) = Some (nul_prefix s).
Proof.
  induction s as [|c r IH]; cbn; [done|].
  destruct (Ascii.eqb c NUL); [done|]. by rewrite IH.
Qed.

Lemma nul_prefix_nul_free (s : string) : nul_free s = true -> nul_prefix s = s.
Proof.
  induction s as [|c r IH]; cbn; [done|].
  destruct (Ascii.eqb c NUL); cbn; [done|]. intros H. by rewrite IH.
Qed.

Lemma nul_free_nul_prefix (s : string) : nul_free (nul_prefix s) = true.
Proof.
  induction s as [|c r IH]; cbn; [done|].
  destruct (Ascii.eqb c NUL) eqn:Hc; cbn; [done|]. by rewrite Hc.
Qed.



Lemma jboolean_to_of_bool (b : bool) : jboolean_to_bool (jboolean_of_bool b) = b.
Proof. by destruct b. Qed.

Lemma jlong_to_ptr_to_jlong (p : Z) :
  0 <= p < 2 ^ 64 -> jlong_to_ptr (ptr_to_jlong p) = p.
Proof.
  intros Hp. unfold jlong_to_ptr, ptr_to_jlong.
  destruct (Z.ltb_spec p (2 ^ 63)).
  - apply Z.mod_small. lia.
  - replace (p - 2 ^ 64) with (p + (-1) * 2 ^ 64) by lia.
    rewrite Z.mod_add by lia. apply Z.mod_small. lia.
Qed.

Lemma ptr_to_jlong_nonzero (p : Z) : 0 < p < 2 ^ 64 -> ptr_to_jlong p <> 0.
Proof.
  intros Hp. unfold ptr_to_jlong. destruct (Z.ltb_spec p (2 ^ 63)); lia.
Qed.

(** ** Modified UTF-8: what is encoded can be decoded *)

Lemma byte_value_of (n : Z) : 0 <= n < 256 -> byte_value (byte_of n) = n.
Proof.
  intros Hn. unfold byte_value, byte_of.
  rewrite N_ascii_embedding by lia. lia.
Qed.

Lemma byte_of_not_NUL (n : Z) : 0 < n < 256 -> Ascii.eqb (byte_of n) NUL = false.
Proof.
  intros Hn. apply Ascii.eqb_neq. intros Heq.
  assert (byte_value (byte_of n) = byte_value NUL) as Hv by (by rewrite Heq).
  rewrite byte_value_of in Hv by lia. vm_compute in Hv. lia.
Qed.

Lemma decode_one_byte (n : Z) (r : string) :
  1 <= n <= 127 ->
  mutf8_decode (String (byte_of n) r) =
  match mutf8_decode r with Some units => Some (n :: units) | None => None end.
Proof.
  intros Hn. cbn [mutf8_decode]. rewrite byte_value_of by lia.
  assert ((1 <=? n) && (n <=? 127) = true) as ->; [|done].
  apply andb_true_iff. split; apply Z.leb_le; lia.
Qed.

Lemma decode_two_bytes (u : Z) (r : string) :
  (u = 0 \/ 128 <= u) -> u <= 2047 ->
  mutf8_decode (String (byte_of (192 + u / 64)) (String (byte_of (128 + u mod 64)) r)) =
  match mutf8_decode r with Some units => Some (u :: units) | None => None end.
Proof.
  intros Hu Hmax.
  assert (0 <= u / 64 < 32) as Hq
    by (split; [apply Z.div_pos; lia|apply Z.div_lt_upper_bound; lia]).
  pose proof (Z.mod_pos_bound u 64 ltac:(lia)) as Hr.
  pose proof (Z.div_mod u 64 ltac:(lia)) as Hdm.
  cbn [mutf8_decode]. rewrite !byte_value_of by lia.
  assert ((1 <=? 192 + u / 64) && (192 + u / 64 <=? 127) = false) as ->.
  { apply andb_false_iff. right. apply Z.leb_gt. lia. }
  assert ((192 <=? 192 + u / 64) && (192 + u / 64 <=? 223) = true) as ->.
  { apply andb_true_iff. split; apply Z.leb_le; lia. }
  replace ((192 + u / 64 - 192) * 64 + (128 + u mod 64 - 128)) with u by lia.
  assert (continuation (128 + u mod 64) && ((u =? 0) || (128 <=? u)) = true) as ->;
    [|done].
  apply andb_true_iff. split.
  - unfold continuation. apply andb_true_iff. split; apply Z.leb_le; lia.
  - apply orb_true_iff. destruct Hu; [left; apply Z.eqb_eq|right; apply Z.leb_le]; lia.
Qed.

Lemma decode_three_bytes (u : Z) (r : string) :
  2048 <= u < 65536 ->
  mutf8_decode
    (String (byte_of (224 + u / 4096))
       (String (byte_of (128 + (u / 64) mod 64))
          (String (byte_of (128 + u mod 64)) r))) =
  match mutf8_decode r with Some units => Some (u :: units) | None => None end.
Proof.
  intros Hu.
  assert (0 <= u / 4096 < 16) as Hq
    by (split; [apply Z.div_pos; lia|apply Z.div_lt_upper_bound; lia]).
  pose proof (Z.mod_pos_bound u 64 ltac:(lia)) as Hr.
  pose proof (Z.mod_pos_bound (u / 64) 64 ltac:(lia)) as Hr2.
  pose proof (Z.div_mod u 64 ltac:(lia)) as Hdm.
  pose proof (Z.div_mod (u / 64) 64 ltac:(lia)) as Hdm2.
  assert (u / 64 / 64 = u / 4096) as Hqq by (rewrite Z.div_div by lia; done).
  cbn [mutf8_decode]. rewrite !byte_value_of by lia.
  assert ((1 <=? 224 + u / 4096) && (224 + u / 4096 <=? 127) = false) as ->.
  { apply andb_false_iff. right. apply Z.leb_gt. lia. }
  assert ((192 <=? 224 + u / 4096) && (224 + u / 4096 <=? 223) = false) as ->.
  { apply andb_false_iff. right. apply Z.leb_gt. lia. }
  assert ((224 <=? 224 + u / 4096) && (224 + u / 4096 <=? 239) = true) as ->.
  { apply andb_true_iff. split; apply Z.leb_le; lia. }
  replace ((224 + u / 4096 - 224) * 4096 + (128 + (u / 64) mod 64 - 128) * 64
           + (128 + u mod 64 - 128)) with u by lia.
  assert (continuation (128 + (u / 64) mod 64) && continuation (128 + u mod 64)
          && (2048 <=? u) = true) as ->; [|done].
  unfold continuation. rewrite !andb_true_iff.
  repeat split; apply Z.leb_le; lia.
Qed.

(** Every managed string comes back from its modified UTF-8 bytes. *)
Lemma mutf8_decode_encode (units : list Z) :
  code_units units -> mutf8_decode (mutf8_encode units) = Some units.
Proof.
  induction 1 as [|u r Hu _ IH]; [done|].
  cbn [mutf8_encode]. unfold encode_unit.
  destruct ((1 <=? u) && (u <=? 127)) eqn:Hone.
  - apply andb_true_iff in Hone as [?%Z.leb_le ?%Z.leb_le].
    rewrite decode_one_byte by lia. by rewrite IH.
  - apply andb_false_iff in Hone.
    destruct (Z.leb_spec u 2047).
    + rewrite decode_two_bytes; [by rewrite IH| |lia].
      destruct Hone as [?%Z.leb_gt|?%Z.leb_gt]; lia.
    + rewrite decode_three_bytes by lia. by rewrite IH.
Qed.

(** Modified UTF-8 holds no NUL byte. *)
Lemma mutf8_encode_nul_free (units : list Z) :
  code_units units -> nul_free (mutf8_encode units) = true.
Proof.
  induction 1 as [|u r Hu _ IH]; [done|].
  cbn [mutf8_encode]. unfold encode_unit.
  assert (0 <= u / 64) by (apply Z.div_pos; lia).
  assert (0 <= u / 4096 < 16)
    by (split; [apply Z.div_pos; lia|apply Z.div_lt_upper_bound; lia]).
  pose proof (Z.mod_pos_bound u 64 ltac:(lia)).
  pose proof (Z.mod_pos_bound (u / 64) 64 ltac:(lia)).
  destruct ((1 <=? u) && (u <=? 127)) eqn:Hone.
  - apply andb_true_iff in Hone as [?%Z.leb_le ?%Z.leb_le].
    cbn [nul_free]. by rewrite byte_of_not_NUL, IH by lia.
  - destruct (Z.leb_spec u 2047).
    + assert (u / 64 < 32) by (apply Z.div_lt_upper_bound; lia).
      cbn [nul_free]. by rewrite !byte_of_not_NUL, IH by lia.
    + cbn [nul_free]. by rewrite !byte_of_not_NUL, IH by lia.
Qed.

(** ** Modified UTF-8: what can be decoded was encoded *)

Lemma byte_of_value (b : ascii) : byte_of (byte_value b) = b.
Proof.
  unfold byte_of, byte_value. rewrite N2Z.id. apply ascii_N_embedding.
Qed.

Lemma byte_value_range (b : ascii) : 0 <= byte_value b < 256.
Proof.
  unfold byte_value. pose proof (N_ascii_bounded b). lia.
Qed.

Lemma mutf8_decode_nil (s : string) : mutf8_decode s = Some [] -> s = EmptyString.
Proof.
  destruct s as [|b1 r1]; [done|]. cbn [mutf8_decode].
  repeat (case_match; try done).
Qed.

(** The bytes of a decoded string begin with the bytes of its first code
    unit, written in the only way modified UTF-8 allows. *)
Lemma mutf8_decode_cons (s : string) (u : Z) (units : list Z) :
  mutf8_decode s = Some (u :: units) ->
  exists rest,
    s = encode_unit u rest /\ mutf8_decode rest = Some units /\ 0 <= u < 65536.
Proof.
  destruct s as [|b1 r1]; [done|]. cbn [mutf8_decode].
  pose proof (byte_value_range b1) as Hb1.
  pose proof (byte_of_value b1) as Hv1.
  destruct ((1 <=? byte_value b1) && (byte_value b1 <=? 127)) eqn:Hone.
  { apply andb_true_iff in Hone as [?%Z.leb_le ?%Z.leb_le].
    destruct (mutf8_decode r1) as [units'|] eqn:Hr; [|done].
    intros [= <- <-]. exists r1. unfold encode_unit.
    assert ((1 <=? byte_value b1) && (byte_value b1 <=? 127) = true) as ->
      by (apply andb_true_iff; split; apply Z.leb_le; lia).
    rewrite Hv1. repeat split; [done|lia|lia]. }
  destruct ((192 <=? byte_value b1) && (byte_value b1 <=? 223)) eqn:Htwo.
  { apply andb_true_iff in Htwo as [?%Z.leb_le ?%Z.leb_le].
    destruct r1 as [|b2 r2]; [done|].
    pose proof (byte_value_range b2) as Hb2.
    pose proof (byte_of_value b2) as Hv2.
    destruct (continuation (byte_value b2) && _) eqn:Hok; [|done].
    apply andb_true_iff in Hok as [Hc Hcanon].
    unfold continuation in Hc.
    apply andb_true_iff in Hc as [?%Z.leb_le ?%Z.leb_le].
    destruct (mutf8_decode r2) as [units'|] eqn:Hr; [|done].
    intros [= <- <-]. exists r2.
    set (u := (byte_value b1 - 192) * 64 + (byte_value b2 - 128)) in *.
    assert (u = 0 \/ 128 <= u) as Hu.
    { apply orb_true_iff in Hcanon as [?%Z.eqb_eq|?%Z.leb_le]; [by left|by right]. }
    assert (u / 64 = byte_value b1 - 192) as Hq
      by (symmetry; apply (Z.div_unique u 64 _ (byte_value b2 - 128)); lia).
    assert (u mod 64 = byte_value b2 - 128) as Hm
      by (symmetry; apply (Z.mod_unique u 64 (byte_value b1 - 192)); lia).
    unfold encode_unit.
    assert ((1 <=? u) && (u <=? 127) = false) as ->.
    { apply andb_false_iff. destruct Hu; [left|right]; apply Z.leb_gt; lia. }
    assert ((u <=? 2047) = true) as -> by (apply Z.leb_le; lia).
    rewrite Hq, Hm.
    replace (192 + (byte_value b1 - 192)) with (byte_value b1) by lia.
    replace (128 + (byte_value b2 - 128)) with (byte_value b2) by lia.
    rewrite Hv1, Hv2. repeat split; [done|lia|lia]. }
  destruct ((224 <=? byte_value b1) && (byte_value b1 <=? 239)) eqn:Hthree; [|done].
  apply andb_true_iff in Hthree as [?%Z.leb_le ?%Z.leb_le].
  destruct r1 as [|b2 [|b3 r3]]; [done|done|].
  pose proof (byte_value_range b2) as Hb2.
  pose proof (byte_of_value b2) as Hv2.
  pose proof (byte_value_range b3) as Hb3.
  pose proof (byte_of_value b3) as Hv3.
  destruct (continuation (byte_value b2) && _ && _) eqn:Hok; [|done].
  apply andb_true_iff in Hok as [Hc Hcanon%Z.leb_le].
  apply andb_true_iff in Hc as [Hc2 Hc3].
  unfold continuation in Hc2, Hc3.
  apply andb_true_iff in Hc2 as [?%Z.leb_le ?%Z.leb_le].
  apply andb_true_iff in Hc3 as [?%Z.leb_le ?%Z.leb_le].
  destruct (mutf8_decode r3) as [units'|] eqn:Hr; [|done].
  intros [= <- <-]. exists r3.
  set (u := (byte_value b1 - 224) * 4096 + (byte_value b2 - 128) * 64
            + (byte_value b3 - 128)) in *.
  assert (u / 64 = (byte_value b1 - 224) * 64 + (byte_value b2 - 128)) as Hq64
    by (symmetry; apply (Z.div_unique u 64 _ (byte_value b3 - 128)); lia).
  assert (u mod 64 = byte_value b3 - 128) as Hm
    by (symmetry;
        apply (Z.mod_unique u 64 ((byte_value b1 - 224) * 64 + (byte_value b2 - 128)));
        lia).
  assert ((u / 64) mod 64 = byte_value b2 - 128) as Hm2.
  { rewrite Hq64. symmetry.
    apply (Z.mod_unique _ 64 (byte_value b1 - 224)); lia. }
  assert (u / 4096 = byte_value b1 - 224) as Hq.
  { symmetry.
    apply (Z.div_unique u 4096 _ ((byte_value b2 - 128) * 64 + (byte_value b3 - 128)));
      lia. }
  unfold encode_unit.
  assert ((1 <=? u) && (u <=? 127) = false) as ->
    by (apply andb_false_iff; right; apply Z.leb_gt; lia).
  assert ((u <=? 2047) = false) as -> by (apply Z.leb_gt; lia).
  rewrite Hq, Hm, Hm2.
  replace (224 + (byte_value b1 - 224)) with (byte_value b1) by lia.
  replace (128 + (byte_value b2 - 128)) with (byte_value b2) by lia.
  replace (128 + (byte_value b3 - 128)) with (byte_value b3) by lia.
  rewrite Hv1, Hv2, Hv3. repeat split; [done|lia|lia].
Qed.

(** Decoding loses nothing: the bytes are the modified UTF-8 of the code
    units they decode to. *)
Lemma mutf8_encode_decode (units : list Z) (s : string) :
  mutf8_decode s = Some units -> mutf8_encode units = s /\ code_units units.
Proof.
  revert s. induction units as [|u units IH]; intros s Hs.
  - apply mutf8_decode_nil in Hs as ->. split; [done|constructor].
  - apply mutf8_decode_cons in Hs as (rest & -> & Hrest & Hu).
    destruct (IH rest Hrest) as [Henc Hunits].
    cbn [mutf8_encode]. rewrite Henc. split; [done|by constructor].
Qed.

Lemma decoder_reads_back (units : list Z) :
  code_units units ->
  decoding_new_string_utf (mutf8_encode units) = Some (mutf8_encode units).
Proof.
  intros Hunits. unfold decoding_new_string_utf.
  by rewrite mutf8_decode_encode.
Qed.

Example emoji_is_not_modified_utf8 : mutf8_decode text_with_emoji = None.
Proof. reflexivity. Qed.

(** The bytes E4 B8 FF: a three-byte sequence whose last byte is no
    continuation. *)
Example broken_sequence_is_not_modified_utf8 :
  mutf8_decode
    (String (byte_of 228) (String (byte_of 184) (String (byte_of 255) EmptyString)))
  = None.
Proof. reflexivity. Qed.

Example accented_text_is_modified_utf8 :
  mutf8_encode [99; 97; 102; 233] = String "c" (String "a" (String "f"
    (String (byte_of 195) (String (byte_of 169) EmptyString)))) /\
  mutf8_decode (mutf8_encode [99; 97; 102; 233]) = Some [99; 97; 102; 233].
Proof. split; reflexivity. Qed.

(** ** The calls, one by one *)

Lemma unused_nonnull_unused {V} (used : gmap Z V) : used !! unused_nonnull used = None.
Proof.
  apply not_elem_of_dom. unfold unused_nonnull.
  pose proof (is_fresh ({[0]} ∪ dom used)). set_solver.
Qed.

Lemma unused_nonnull_nonnull {V} (used : gmap Z V) : (unused_nonnull used =? 0) = false.
Proof.
  apply Z.eqb_neq. unfold unused_nonnull.
  pose proof (is_fresh ({[0]} ∪ dom used)). set_solver.
Qed.

Section Calls.
Context {E : EngineModel} {A : Allocator} {P : Platform}.

Lemma fresh_utf_chars (w : World) : utf_chars w !! unused_nonnull (utf_chars w) = None.
Proof. apply unused_nonnull_unused. Qed.

Lemma fresh_float_elems (w : World) :
  float_elems w !! unused_nonnull (float_elems w) = None.
Proof. apply unused_nonnull_unused. Qed.

Lemma bind_Done {R S} (c : Native R) (k : R -> Native S) (w w1 : World) (r : R) :
  c w = Done r w1 -> bind c k w = k r w1.
Proof. intros H. unfold bind. by rewrite H. Qed.

Lemma bind_Undefined {R S} (c : Native R) (k : R -> Native S) (w : World) :
  c w = Undefined -> bind c k w = Undefined.
Proof. intros H. unfold bind. by rewrite H. Qed.

Lemma bind_Abort {R S} (c : Native R) (k : R -> Native S) (w : World) :
  c w = Abort -> bind c k w = Abort.
Proof. intros H. unfold bind. by rewrite H. Qed.

Lemma GetStringUTFChars_Done (w : World) (str : Z) (bytes : string) :
  jstrings w !! str = Some bytes ->
  grants (trace w) (ReqStringUTFChars str) = true ->
  GetStringUTFChars str w =
  Done (unused_nonnull (utf_chars w))
    (mkWorld (native_heap w) (jstrings w) (jfloatArrays w)
       (<[unused_nonnull (utf_chars w) := (str, c_str bytes)]> (utf_chars w))
       (float_elems w)
       (trace w ++ [EvGetStringUTFChars str (unused_nonnull (utf_chars w))])).
Proof. intros H Hg. unfold GetStringUTFChars. by rewrite H, Hg. Qed.

Lemma GetStringUTFChars_refused (w : World) (str : Z) (bytes : string) :
  jstrings w !! str = Some bytes ->
  grants (trace w) (ReqStringUTFChars str) = false ->
  GetStringUTFChars str w =
  Done 0
    (mkWorld (native_heap w) (jstrings w) (jfloatArrays w) (utf_chars w)
       (float_elems w) (trace w ++ [EvRefused (ReqStringUTFChars str)])).
Proof. intros H Hg. unfold GetStringUTFChars. by rewrite H, Hg. Qed.

Lemma ReleaseStringUTFChars_Done (w : World) (str chars : Z) (buf : string) :
  (chars =? 0) = false ->
  utf_chars w !! chars = Some (str, buf) ->
  ReleaseStringUTFChars str chars w =
  Done tt
    (mkWorld (native_heap w) (jstrings w) (jfloatArrays w)
       (delete chars (utf_chars w)) (float_elems w)
       (trace w ++ [EvReleaseStringUTFChars str chars])).
Proof.
  intros Hn Hb. unfold ReleaseStringUTFChars. by rewrite Hn, Hb, Z.eqb_refl.
Qed.

Lemma GetArrayLength_Done (w : World) (array : Z) (xs : list jfloat) :
  jfloatArrays w !! array = Some xs ->
  GetArrayLength array w =
  Done (Z.of_nat (length xs))
    (mkWorld (native_heap w) (jstrings w) (jfloatArrays w) (utf_chars w)
       (float_elems w)
       (trace w ++ [EvGetArrayLength array (Z.of_nat (length xs))])).
Proof. intros H. unfold GetArrayLength. by rewrite H. Qed.

Lemma GetFloatArrayElements_Done (w : World) (array : Z) (xs : list jfloat) :
  jfloatArrays w !! array = Some xs ->
  grants (trace w) (ReqFloatArrayElements array) = true ->
  GetFloatArrayElements array w =
  Done (unused_nonnull (float_elems w))
    (mkWorld (native_heap w) (jstrings w) (jfloatArrays w) (utf_chars w)
       (<[unused_nonnull (float_elems w) := (array, xs)]> (float_elems w))
       (trace w ++
          [EvGetFloatArrayElements array (unused_nonnull (float_elems w))])).
Proof. intros H Hg. unfold GetFloatArrayElements. by rewrite H, Hg. Qed.

Lemma GetFloatArrayElements_refused (w : World) (array : Z) (xs : list jfloat) :
  jfloatArrays w !! array = Some xs ->
  grants (trace w) (ReqFloatArrayElements array) = false ->
  GetFloatArrayElements array w =
  Done 0
    (mkWorld (native_heap w) (jstrings w) (jfloatArrays w) (utf_chars w)
       (float_elems w) (trace w ++ [EvRefused (ReqFloatArrayElements array)])).
Proof. intros H Hg. unfold GetFloatArrayElements. by rewrite H, Hg. Qed.

(** Copying as many elements as the buffer holds copies all of them. *)
Lemma vector_from_range_all (w : World) (first owner : Z) (xs : list jfloat) :
  (first =? 0) = false ->
  float_elems w !! first = Some (owner, xs) ->
  (Z.of_nat (length xs) =? 0) || grants (trace w) (ReqVector (Z.of_nat (length xs)))
  = true ->
  vector_from_range first (Z.of_nat (length xs)) w =
  Done xs
    (mkWorld (native_heap w) (jstrings w) (jfloatArrays w) (utf_chars w)
       (float_elems w)
       (trace w ++ [EvVectorCopy first (Z.of_nat (length xs)) xs])).
Proof.
  intros Hn H Hg. unfold vector_from_range.
  assert ((Z.of_nat (length xs) <? 0) = false) as -> by (apply Z.ltb_ge; lia).
  destruct (Z.eqb_spec (Z.of_nat (length xs)) 0) as [Hz|Hz].
  - destruct xs; [done|]. cbn in Hz. lia.
  - cbn in Hg. rewrite Hn, H.
    assert ((Z.of_nat (length xs) <=? Z.of_nat (length xs)) = true) as ->
      by (apply Z.leb_le; lia).
    by rewrite Hg, Nat2Z.id, firstn_all.
Qed.

(** A vector of all the elements, at least one, for which there is no
    memory. *)
Lemma vector_from_range_bad_alloc (w : World) (first owner : Z) (xs : list jfloat) :
  (first =? 0) = false ->
  float_elems w !! first = Some (owner, xs) ->
  (Z.of_nat (length xs) =? 0) || grants (trace w) (ReqVector (Z.of_nat (length xs)))
  = false ->
  vector_from_range first (Z.of_nat (length xs)) w = Abort.
Proof.
  intros Hn H Hg. unfold vector_from_range.
  apply orb_false_iff in Hg as [Hz Hg].
  assert ((Z.of_nat (length xs) <? 0) = false) as -> by (apply Z.ltb_ge; lia).
  rewrite Hz, Hn, H.
  assert ((Z.of_nat (length xs) <=? Z.of_nat (length xs)) = true) as ->
    by (apply Z.leb_le; lia).
  by rewrite Hg.
Qed.

(** A range of at least one element that starts at the null pointer. *)
Lemma vector_from_range_null (w : World) (count : Z) :
  0 < count ->
  vector_from_range 0 count w = Undefined.
Proof.
  intros Hc. unfold vector_from_range.
  assert ((count <? 0) = false) as -> by (apply Z.ltb_ge; lia).
  by assert ((count =? 0) = false) as -> by (apply Z.eqb_neq; lia).
Qed.

Lemma ReleaseFloatArrayElements_abort (w : World) (array elems : Z)
    (buf : list jfloat) :
  (elems =? 0) = false ->
  float_elems w !! elems = Some (array, buf) ->
  ReleaseFloatArrayElements array elems JNI_ABORT w =
  Done tt
    (mkWorld (native_heap w) (jstrings w) (jfloatArrays w) (utf_chars w)
       (delete elems (float_elems w))
       (trace w ++ [EvReleaseFloatArrayElements array elems JNI_ABORT])).
Proof.
  intros Hn Hb. unfold ReleaseFloatArrayElements. by rewrite Hn, Hb, Z.eqb_refl.
Qed.

Lemma NewStringUTF_c_str (w : World) (s made : string) :
  new_string_utf (nul_prefix s) = Some made ->
  grants (trace w) (ReqNewStringUTF (nul_prefix s)) = true ->
  NewStringUTF (c_str s) w =
  Done (unused_nonnull (jstrings w))
    (mkWorld (native_heap w)
       (<[unused_nonnull (jstrings w) := made]> (jstrings w))
       (jfloatArrays w) (utf_chars w) (float_elems w)
       (trace w ++ [EvNewStringUTF (nul_prefix s) (unused_nonnull (jstrings w))])).
Proof.
  intros Hm Hg. unfold NewStringUTF. by rewrite read_c_str_c_str, Hm, Hg.
Qed.

Lemma NewStringUTF_refused (w : World) (s made : string) :
  new_string_utf (nul_prefix s) = Some made ->
  grants (trace w) (ReqNewStringUTF (nul_prefix s)) = false ->
  NewStringUTF (c_str s) w =
  Done 0
    (mkWorld (native_heap w) (jstrings w) (jfloatArrays w) (utf_chars w)
       (float_elems w) (trace w ++ [EvRefused (ReqNewStringUTF (nul_prefix s))])).
Proof.
  intros Hm Hg. unfold NewStringUTF. by rewrite read_c_str_c_str, Hm, Hg.
Qed.

Lemma NewStringUTF_not_modified_utf8 (w : World) (s : string) :
  new_string_utf (nul_prefix s) = None ->
  NewStringUTF (c_str s) w = Undefined.
Proof. intros Hm. unfold NewStringUTF. by rewrite read_c_str_c_str, Hm. Qed.

Lemma TFLiteEngine_loadModel_live (w : World) (this modelPath owner : Z)
    (isMultilingual : bool) (e : engine) (path : string) :
  (modelPath =? 0) = false ->
  native_heap w !! this = Some e ->
  utf_chars w !! modelPath = Some (owner, c_str path) ->
  TFLiteEngine_loadModel this modelPath isMultilingual w =
  match eng_loadModel e (nul_prefix path) isMultilingual with
  | Some (e', result) =>
      Done result
        (mkWorld (<[this := e']> (native_heap w)) (jstrings w) (jfloatArrays w)
           (utf_chars w) (float_elems w)
           (trace w ++ [EvLoadModel this (nul_prefix path) isMultilingual result]))
  | None => Undefined
  end.
Proof.
  intros Hn He Hb. unfold TFLiteEngine_loadModel.
  rewrite Hn, He, Hb, read_c_str_c_str.
  by destruct (eng_loadModel _ _ _) as [[e' result]|].
Qed.

Lemma TFLiteEngine_transcribeFile_live (w : World) (this waveFile owner : Z)
    (e : engine) (path : string) :
  (waveFile =? 0) = false ->
  native_heap w !! this = Some e ->
  utf_chars w !! waveFile = Some (owner, c_str path) ->
  TFLiteEngine_transcribeFile this waveFile w =
  match eng_transcribeFile e (nul_prefix path) with
  | Some (e', result) =>
      Done result
        (mkWorld (<[this := e']> (native_heap w)) (jstrings w) (jfloatArrays w)
           (utf_chars w) (float_elems w)
           (trace w ++ [EvTranscribeFile this (nul_prefix path) result]))
  | None => Undefined
  end.
Proof.
  intros Hn He Hb. unfold TFLiteEngine_transcribeFile.
  rewrite Hn, He, Hb, read_c_str_c_str.
  by destruct (eng_transcribeFile _ _) as [[e' result]|].
Qed.

Lemma TFLiteEngine_transcribeBuffer_live (w : World) (this : Z)
    (e : engine) (xs : list jfloat) :
  native_heap w !! this = Some e ->
  TFLiteEngine_transcribeBuffer this xs w =
  match eng_transcribeBuffer e xs with
  | Some (e', result) =>
      Done result
        (mkWorld (<[this := e']> (native_heap w)) (jstrings w) (jfloatArrays w)
           (utf_chars w) (float_elems w)
           (trace w ++ [EvTranscribeBuffer this xs result]))
  | None => Undefined
  end.
Proof.
  intros He. unfold TFLiteEngine_transcribeBuffer. rewrite He.
  by destruct (eng_transcribeBuffer _ _) as [[e' result]|].
Qed.

Lemma TFLiteEngine_freeModel_live (w : World) (this : Z) (e : engine) :
  native_heap w !! this = Some e ->
  TFLiteEngine_freeModel this w =
  match eng_freeModel e with
  | Some e' =>
      Done tt
        (mkWorld (<[this := e']> (native_heap w)) (jstrings w) (jfloatArrays w)
           (utf_chars w) (float_elems w) (trace w ++ [EvFreeModel this]))
  | None => Undefined
  end.
Proof.
  intros He. unfold TFLiteEngine_freeModel. rewrite He.
  by destruct (eng_freeModel _).
Qed.

Lemma delete_TFLiteEngine_live (w : World) (p : Z) (e : engine) :
  native_heap w !! p = Some e ->
  delete_TFLiteEngine p w =
  Done tt
    (mkWorld (delete p (native_heap w)) (jstrings w) (jfloatArrays w)
       (utf_chars w) (float_elems w) (trace w ++ [EvDelete p])).
Proof. intros He. unfold delete_TFLiteEngine. by rewrite He. Qed.

(** A call through a pointer to no live engine. *)
Lemma TFLiteEngine_loadModel_dead (w : World) (this modelPath : Z) (ml : bool) :
  native_heap w !! this = None ->
  TFLiteEngine_loadModel this modelPath ml w = Undefined.
Proof.
  intros He. unfold TFLiteEngine_loadModel. rewrite He. by destruct (modelPath =? 0).
Qed.

Lemma TFLiteEngine_transcribeFile_dead (w : World) (this waveFile : Z) :
  native_heap w !! this = None ->
  TFLiteEngine_transcribeFile this waveFile w = Undefined.
Proof.
  intros He. unfold TFLiteEngine_transcribeFile. rewrite He. by destruct (waveFile =? 0).
Qed.

Lemma TFLiteEngine_transcribeBuffer_dead (w : World) (this : Z) (xs : list jfloat) :
  native_heap w !! this = None ->
  TFLiteEngine_transcribeBuffer this xs w = Undefined.
Proof. intros He. unfold TFLiteEngine_transcribeBuffer. by rewrite He. Qed.

(** ** What each exported function computes, on any platform *)

Lemma loadModel_outcome (w : World) (nativePtr modelPath isMultilingual : Z) :
  Java_com_proactiveagentv2_engine_WhisperEngineNative_loadModel
    nativePtr modelPath isMultilingual w =
  match jstrings w !! modelPath with
  | None => Undefined
  | Some path =>
      if grants (trace w) (ReqStringUTFChars modelPath) then
        match native_heap w !! jlong_to_ptr nativePtr with
        | None => Undefined
        | Some e =>
            match eng_loadModel e (nul_prefix path)
                    (jboolean_to_bool isMultilingual) with
            | Some (e', result) =>
                let chars := unused_nonnull (utf_chars w) in
                Done result
                  (mkWorld (<[jlong_to_ptr nativePtr := e']> (native_heap w))
                     (jstrings w) (jfloatArrays w) (utf_chars w) (float_elems w)
                     (trace w ++
                        [EvGetStringUTFChars modelPath chars;
                         EvLoadModel (jlong_to_ptr nativePtr) (nul_prefix path)
                           (jboolean_to_bool isMultilingual) result;
                         EvReleaseStringUTFChars modelPath chars]))
            | None => Undefined
            end
        end
      else Undefined
  end.
Proof.
  unfold Java_com_proactiveagentv2_engine_WhisperEngineNative_loadModel.
  destruct (jstrings w !! modelPath) as [path|] eqn:Hs;
    [|apply bind_Undefined; unfold GetStringUTFChars; by rewrite Hs].
  destruct (grants (trace w) (ReqStringUTFChars modelPath)) eqn:Hg.
  - rewrite (bind_Done _ _ _ _ _ (GetStringUTFChars_Done w modelPath path Hs Hg)).
    destruct (native_heap w !! jlong_to_ptr nativePtr) as [e|] eqn:He;
      [|by apply bind_Undefined, TFLiteEngine_loadModel_dead].
    unfold bind at 1.
    erewrite TFLiteEngine_loadModel_live;
      [|apply unused_nonnull_nonnull|exact He|apply lookup_insert_eq].
    destruct (eng_loadModel _ _ _) as [[e' result]|]; [|done].
    erewrite bind_Done;
      [|eapply ReleaseStringUTFChars_Done;
        [apply unused_nonnull_nonnull|apply lookup_insert_eq]].
    unfold ret. cbn.
    rewrite delete_insert_id by apply fresh_utf_chars.
    by rewrite <- !app_assoc.
  - rewrite (bind_Done _ _ _ _ _ (GetStringUTFChars_refused w modelPath path Hs Hg)).
    by apply bind_Undefined.
Qed.

Lemma transcribeFile_outcome (w : World) (nativePtr waveFile : Z) :
  Java_com_proactiveagentv2_engine_WhisperEngineNative_transcribeFile
    nativePtr waveFile w =
  match jstrings w !! waveFile with
  | None => Undefined
  | Some path =>
      if grants (trace w) (ReqStringUTFChars waveFile) then
        match native_heap w !! jlong_to_ptr nativePtr with
        | None => Undefined
        | Some e =>
            match eng_transcribeFile e (nul_prefix path) with
            | Some (e', result) =>
                let chars := unused_nonnull (utf_chars w) in
                let called :=
                  trace w ++
                    [EvGetStringUTFChars waveFile chars;
                     EvTranscribeFile (jlong_to_ptr nativePtr) (nul_prefix path)
                       result;
                     EvReleaseStringUTFChars waveFile chars] in
                match new_string_utf (nul_prefix result) with
                | Some made =>
                    if grants called (ReqNewStringUTF (nul_prefix result)) then
                      let str := unused_nonnull (jstrings w) in
                      Done str
                        (mkWorld (<[jlong_to_ptr nativePtr := e']> (native_heap w))
                           (<[str := made]> (jstrings w))
                           (jfloatArrays w) (utf_chars w) (float_elems w)
                           (called ++ [EvNewStringUTF (nul_prefix result) str]))
                    else
                      Done 0
                        (mkWorld (<[jlong_to_ptr nativePtr := e']> (native_heap w))
                           (jstrings w) (jfloatArrays w) (utf_chars w)
                           (float_elems w)
                           (called ++ [EvRefused (ReqNewStringUTF (nul_prefix result))]))
                | None => Undefined
                end
            | None => Undefined
            end
        end
      else Undefined
  end.
Proof.
  unfold Java_com_proactiveagentv2_engine_WhisperEngineNative_transcribeFile.
  destruct (jstrings w !! waveFile) as [path|] eqn:Hs;
    [|apply bind_Undefined; unfold GetStringUTFChars; by rewrite Hs].
  destruct (grants (trace w) (ReqStringUTFChars waveFile)) eqn:Hg.
  - rewrite (bind_Done _ _ _ _ _ (GetStringUTFChars_Done w waveFile path Hs Hg)).
    destruct (native_heap w !! jlong_to_ptr nativePtr) as [e|] eqn:He;
      [|by apply bind_Undefined, TFLiteEngine_transcribeFile_dead].
    unfold bind at 1.
    erewrite TFLiteEngine_transcribeFile_live;
      [|apply unused_nonnull_nonnull|exact He|apply lookup_insert_eq].
    destruct (eng_transcribeFile _ _) as [[e' result]|]; [|done].
    erewrite bind_Done;
      [|eapply ReleaseStringUTFChars_Done;
        [apply unused_nonnull_nonnull|apply lookup_insert_eq]].
    cbn [native_heap jstrings jfloatArrays utf_chars float_elems trace].
    rewrite <- !app_assoc. cbn [app].
    destruct (new_string_utf (nul_prefix result)) as [made|] eqn:Hm;
      [|by apply NewStringUTF_not_modified_utf8].
    destruct (grants _ (ReqNewStringUTF _)) eqn:Hn.
    + erewrite NewStringUTF_c_str; [|exact Hm|exact Hn]. cbn.
      rewrite delete_insert_id by apply fresh_utf_chars.
      by rewrite <- ?app_assoc.
    + erewrite NewStringUTF_refused; [|exact Hm|exact Hn]. cbn.
      rewrite delete_insert_id by apply fresh_utf_chars.
      by rewrite <- ?app_assoc.
  - rewrite (bind_Done _ _ _ _ _ (GetStringUTFChars_refused w waveFile path Hs Hg)).
    by apply bind_Undefined.
Qed.

Lemma vector_from_range_empty (w : World) (first : Z) :
  vector_from_range first 0 w =
  Done []
    (mkWorld (native_heap w) (jstrings w) (jfloatArrays w) (utf_chars w)
       (float_elems w) (trace w ++ [EvVectorCopy first 0 []])).
Proof. reflexivity. Qed.

Lemma ReleaseFloatArrayElements_null (w : World) (array mode : Z) :
  ReleaseFloatArrayElements array 0 mode w = Undefined.
Proof. reflexivity. Qed.

Lemma transcribeBuffer_outcome (w : World) (nativePtr samples : Z) :
  Java_com_proactiveagentv2_engine_WhisperEngineNative_transcribeBuffer
    nativePtr samples w =
  match jfloatArrays w !! samples with
  | None => Undefined
  | Some xs =>
      let n := Z.of_nat (length xs) in
      let measured := trace w ++ [EvGetArrayLength samples n] in
      if grants measured (ReqFloatArrayElements samples) then
        let elems := unused_nonnull (float_elems w) in
        let lent := measured ++ [EvGetFloatArrayElements samples elems] in
        if (n =? 0) || grants lent (ReqVector n) then
          match native_heap w !! jlong_to_ptr nativePtr with
          | None => Undefined
          | Some e =>
              match eng_transcribeBuffer e xs with
              | Some (e', result) =>
                  let called :=
                    trace w ++
                      [EvGetArrayLength samples n;
                       EvGetFloatArrayElements samples elems;
                       EvVectorCopy elems n xs;
                       EvReleaseFloatArrayElements samples elems JNI_ABORT;
                       EvTranscribeBuffer (jlong_to_ptr nativePtr) xs result] in
                  match new_string_utf (nul_prefix result) with
                  | Some made =>
                      if grants called (ReqNewStringUTF (nul_prefix result)) then
                        let str := unused_nonnull (jstrings w) in
                        Done str
                          (mkWorld
                             (<[jlong_to_ptr nativePtr := e']> (native_heap w))
                             (<[str := made]> (jstrings w))
                             (jfloatArrays w) (utf_chars w) (float_elems w)
                             (called ++ [EvNewStringUTF (nul_prefix result) str]))
                      else
                        Done 0
                          (mkWorld
                             (<[jlong_to_ptr nativePtr := e']> (native_heap w))
                             (jstrings w) (jfloatArrays w) (utf_chars w)
                             (float_elems w)
                             (called ++
                                [EvRefused (ReqNewStringUTF (nul_prefix result))]))
                  | None => Undefined
                  end
              | None => Undefined
              end
          end
        else Abort
      else Undefined
  end.
Proof.
  unfold Java_com_proactiveagentv2_engine_WhisperEngineNative_transcribeBuffer.
  destruct (jfloatArrays w !! samples) as [xs|] eqn:Ha;
    [|apply bind_Undefined; unfold GetArrayLength; by rewrite Ha].
  rewrite (bind_Done _ _ _ _ _ (GetArrayLength_Done w samples xs Ha)).
  cbn zeta.
  destruct (grants (trace w ++ _) (ReqFloatArrayElements samples)) eqn:Hg.
  - erewrite bind_Done; [|eapply GetFloatArrayElements_Done; [exact Ha|exact Hg]].
    cbn [native_heap jstrings jfloatArrays utf_chars float_elems trace].
    destruct ((Z.of_nat (length xs) =? 0) || grants _ (ReqVector _)) eqn:Hv.
    + erewrite bind_Done;
        [|eapply vector_from_range_all;
          [apply unused_nonnull_nonnull|apply lookup_insert_eq|exact Hv]].
      erewrite bind_Done;
        [|eapply ReleaseFloatArrayElements_abort;
          [apply unused_nonnull_nonnull|apply lookup_insert_eq]].
      cbn [native_heap jstrings jfloatArrays utf_chars float_elems trace].
      rewrite delete_insert_id by apply fresh_float_elems.
      rewrite <- !app_assoc. cbn [app].
      destruct (native_heap w !! jlong_to_ptr nativePtr) as [e|] eqn:He;
        [|by apply bind_Undefined, TFLiteEngine_transcribeBuffer_dead].
      unfold bind at 1.
      erewrite TFLiteEngine_transcribeBuffer_live; [|exact He].
      destruct (eng_transcribeBuffer _ _) as [[e' result]|]; [|done].
      cbn [native_heap jstrings jfloatArrays utf_chars float_elems trace].
      rewrite <- !app_assoc. cbn [app].
      destruct (new_string_utf (nul_prefix result)) as [made|] eqn:Hm;
        [|by apply NewStringUTF_not_modified_utf8].
      destruct (grants _ (ReqNewStringUTF _)) eqn:Hn.
      * erewrite NewStringUTF_c_str; [|exact Hm|exact Hn]. cbn.
        by rewrite <- ?app_assoc.
      * erewrite NewStringUTF_refused; [|exact Hm|exact Hn]. cbn.
        by rewrite <- ?app_assoc.
    + eapply bind_Abort, vector_from_range_bad_alloc;
        [apply unused_nonnull_nonnull|apply lookup_insert_eq|exact Hv].
  - erewrite bind_Done; [|eapply GetFloatArrayElements_refused; [exact Ha|exact Hg]].
    cbn [native_heap jstrings jfloatArrays utf_chars float_elems trace].
    destruct (Z.eqb_spec (Z.of_nat (length xs)) 0) as [Hz|Hz].
    + rewrite Hz. rewrite (bind_Done _ _ _ _ _ (vector_from_range_empty _ 0)).
      by apply bind_Undefined.
    + apply bind_Undefined, vector_from_range_null. lia.
Qed.

Lemma freeModel_run (w : World) (nativePtr : Z) (e : engine) :
  native_heap w !! jlong_to_ptr nativePtr = Some e ->
  Java_com_proactiveagentv2_engine_WhisperEngineNative_freeModel nativePtr w =
  match eng_freeModel e with
  | Some _ =>
      Done tt
        (mkWorld (delete (jlong_to_ptr nativePtr) (native_heap w))
           (jstrings w) (jfloatArrays w) (utf_chars w) (float_elems w)
           (trace w ++
              [EvFreeModel (jlong_to_ptr nativePtr);
               EvDelete (jlong_to_ptr nativePtr)]))
  | None => Undefined
  end.
Proof.
  intros He.
  unfold Java_com_proactiveagentv2_engine_WhisperEngineNative_freeModel.
  unfold bind at 1. rewrite (TFLiteEngine_freeModel_live w _ e He).
  destruct (eng_freeModel e) as [e'|]; [|done].
  erewrite delete_TFLiteEngine_live; [|apply lookup_insert_eq]. cbn.
  by rewrite delete_insert_eq, <- !app_assoc.
Qed.

Lemma createTFLiteEngine_run (w : World) :
  Java_com_proactiveagentv2_engine_WhisperEngineNative_createTFLiteEngine w =
  match operator_new (dom (native_heap w)) with
  | Some p =>
      Done (ptr_to_jlong p)
        (mkWorld (<[p := eng_new]> (native_heap w))
           (jstrings w) (jfloatArrays w) (utf_chars w) (float_elems w)
           (trace w ++ [EvNew p]))
  | None => Abort
  end.
Proof.
  unfold Java_com_proactiveagentv2_engine_WhisperEngineNative_createTFLiteEngine,
    bind, new_TFLiteEngine, ret.
  by destruct (operator_new _).
Qed.

Lemma freeModel_dead (w : World) (nativePtr : Z) :
  native_heap w !! jlong_to_ptr nativePtr = None ->
  Java_com_proactiveagentv2_engine_WhisperEngineNative_freeModel nativePtr w
  = Undefined.
Proof.
  intros He.
  unfold Java_com_proactiveagentv2_engine_WhisperEngineNative_freeModel.
  apply bind_Undefined. unfold TFLiteEngine_freeModel. by rewrite He.
Qed.

Lemma freeModel_returned (w w' : World) (nativePtr : Z) (u : unit) :
  Java_com_proactiveagentv2_engine_WhisperEngineNative_freeModel nativePtr w
  = Done u w' ->
  exists e e',
    native_heap w !! jlong_to_ptr nativePtr = Some e /\
    eng_freeModel e = Some e' /\
    w' = mkWorld (delete (jlong_to_ptr nativePtr) (native_heap w))
           (jstrings w) (jfloatArrays w) (utf_chars w) (float_elems w)
           (trace w ++
              [EvFreeModel (jlong_to_ptr nativePtr);
               EvDelete (jlong_to_ptr nativePtr)]).
Proof.
  destruct (native_heap w !! jlong_to_ptr nativePtr) as [e|] eqn:He;
    [|by rewrite freeModel_dead].
  rewrite (freeModel_run w nativePtr e He).
  destruct (eng_freeModel e) as [e'|] eqn:Hf; [|done].
  intros [= <-]. by exists e, e'.
Qed.

End Calls.

(** ** On any platform *)

Section AnyPlatform.
Context {E : EngineModel} {A : Allocator} {P : Platform}.

(** C3, as the code has it. For every live handle on which the engine
    returns a text that is modified UTF-8 (and so holds no NUL byte), on a
    platform that finds memory for every request, [transcribeBuffer] and
    [transcribeFile] return a managed string, not null, holding exactly
    that text. *)
Theorem transcribe_text_verbatim_modified_utf8 (w : World) (nativePtr : Z)
    (e : engine) (text : string) (units : list Z) :
  (forall t r, grants t r = true) ->
  native_heap w !! jlong_to_ptr nativePtr = Some e ->
  mutf8_decode text = Some units ->
  (forall (samples : Z) (xs : list jfloat) (e' : engine),
     jfloatArrays w !! samples = Some xs ->
     eng_transcribeBuffer e xs = Some (e', text) ->
     exists str w',
       Java_com_proactiveagentv2_engine_WhisperEngineNative_transcribeBuffer
         nativePtr samples w = Done str w' /\
       str <> 0 /\
       jstrings w' !! str = Some text) /\
  (forall (waveFile : Z) (path : string) (e' : engine),
     modified_utf8 w ->
     jstrings w !! waveFile = Some path ->
     eng_transcribeFile e path = Some (e', text) ->
     exists str w',
       Java_com_proactiveagentv2_engine_WhisperEngineNative_transcribeFile
         nativePtr waveFile w = Done str w' /\
       str <> 0 /\
       jstrings w' !! str = Some text).
Proof.
  intros Hgrants He Hdecode.
  apply mutf8_encode_decode in Hdecode as [<- Hunits].
  pose proof (mutf8_encode_nul_free units Hunits) as Hnul.
  pose proof (new_string_utf_modified_utf8 units Hunits) as Hmade.
  split.
  - intros samples xs e' Ha Ht.
    rewrite transcribeBuffer_outcome, Ha. cbn zeta.
    rewrite !Hgrants, orb_true_r, He, Ht.
    rewrite (nul_prefix_nul_free _ Hnul), Hmade, Hgrants.
    eexists _, _. split; [reflexivity|]. cbn.
    split; [apply Z.eqb_neq, unused_nonnull_nonnull|apply lookup_insert_eq].
  - intros waveFile path e' Hutf Hs Ht.
    rewrite transcribeFile_outcome, Hs, Hgrants, He.
    rewrite (nul_prefix_nul_free path) by exact (Hutf _ _ Hs).
    rewrite Ht. cbn zeta.
    rewrite (nul_prefix_nul_free _ Hnul), Hmade, Hgrants.
    eexists _, _. split; [reflexivity|]. cbn.
    split; [apply Z.eqb_neq, unused_nonnull_nonnull|apply lookup_insert_eq].
Qed.


(** ** What a call that returned must have done *)

Lemma loadModel_returned (w w' : World) (nativePtr modelPath isMultilingual : Z)
    (status : Z) :
  Java_com_proactiveagentv2_engine_WhisperEngineNative_loadModel
    nativePtr modelPath isMultilingual w = Done status w' ->
  exists e path e',
    native_heap w !! jlong_to_ptr nativePtr = Some e /\
    jstrings w !! modelPath = Some path /\
    eng_loadModel e (nul_prefix path) (jboolean_to_bool isMultilingual)
    = Some (e', status) /\
    w' = mkWorld (<[jlong_to_ptr nativePtr := e']> (native_heap w))
           (jstrings w) (jfloatArrays w) (utf_chars w) (float_elems w)
           (trace w ++
              [EvGetStringUTFChars modelPath (unused_nonnull (utf_chars w));
               EvLoadModel (jlong_to_ptr nativePtr) (nul_prefix path)
                 (jboolean_to_bool isMultilingual) status;
               EvReleaseStringUTFChars modelPath (unused_nonnull (utf_chars w))]).
Proof.
  rewrite loadModel_outcome.
  destruct (jstrings w !! modelPath) as [path|] eqn:Hs; [|done].
  destruct (grants _ _); [|done].
  destruct (native_heap w !! jlong_to_ptr nativePtr) as [e|] eqn:He; [|done].
  destruct (eng_loadModel _ _ _) as [[e' result]|] eqn:Hl; [|done].
  cbn. intros [= <- <-]. by exists e, path, e'.
Qed.

(** A transcription that returned made its string, or found no memory
    for it and returned null. *)
Lemma transcribeBuffer_returned_any (w w' : World) (nativePtr samples : Z)
    (str : Z) :
  Java_com_proactiveagentv2_engine_WhisperEngineNative_transcribeBuffer
    nativePtr samples w = Done str w' ->
  exists e xs e' text,
    native_heap w !! jlong_to_ptr nativePtr = Some e /\
    jfloatArrays w !! samples = Some xs /\
    eng_transcribeBuffer e xs = Some (e', text) /\
    let elems := unused_nonnull (float_elems w) in
    let called :=
      [EvGetArrayLength samples (Z.of_nat (length xs));
       EvGetFloatArrayElements samples elems;
       EvVectorCopy elems (Z.of_nat (length xs)) xs;
       EvReleaseFloatArrayElements samples elems JNI_ABORT;
       EvTranscribeBuffer (jlong_to_ptr nativePtr) xs text] in
    (exists made,
       new_string_utf (nul_prefix text) = Some made /\
       str = unused_nonnull (jstrings w) /\
       w' = mkWorld (<[jlong_to_ptr nativePtr := e']> (native_heap w))
              (<[str := made]> (jstrings w))
              (jfloatArrays w) (utf_chars w) (float_elems w)
              (trace w ++ called ++ [EvNewStringUTF (nul_prefix text) str])) \/
    (str = 0 /\
     w' = mkWorld (<[jlong_to_ptr nativePtr := e']> (native_heap w))
            (jstrings w) (jfloatArrays w) (utf_chars w) (float_elems w)
            (trace w ++ called ++ [EvRefused (ReqNewStringUTF (nul_prefix text))])).
Proof.
  rewrite transcribeBuffer_outcome.
  destruct (jfloatArrays w !! samples) as [xs|] eqn:Ha; [|done].
  cbn zeta.
  destruct (grants _ (ReqFloatArrayElements _)); [|done].
  destruct (_ || _); [|done].
  destruct (native_heap w !! jlong_to_ptr nativePtr) as [e|] eqn:He; [|done].
  destruct (eng_transcribeBuffer e xs) as [[e' text]|] eqn:Ht; [|done].
  destruct (new_string_utf (nul_prefix text)) as [made|] eqn:Hm; [|done].
  destruct (grants _ (ReqNewStringUTF _)).
  - intros [= <- <-]. exists e, xs, e', text.
    split; [done|]. split; [done|]. split; [done|].
    left. exists made. split; [done|]. split; [done|].
    by rewrite <- app_assoc.
  - intros [= <- <-]. exists e, xs, e', text.
    split; [done|]. split; [done|]. split; [done|].
    right. split; [done|]. by rewrite <- app_assoc.
Qed.

Lemma transcribeFile_returned_any (w w' : World) (nativePtr waveFile : Z)
    (str : Z) :
  Java_com_proactiveagentv2_engine_WhisperEngineNative_transcribeFile
    nativePtr waveFile w = Done str w' ->
  exists e path e' text,
    native_heap w !! jlong_to_ptr nativePtr = Some e /\
    jstrings w !! waveFile = Some path /\
    eng_transcribeFile e (nul_prefix path) = Some (e', text) /\
    let chars := unused_nonnull (utf_chars w) in
    let called :=
      [EvGetStringUTFChars waveFile chars;
       EvTranscribeFile (jlong_to_ptr nativePtr) (nul_prefix path) text;
       EvReleaseStringUTFChars waveFile chars] in
    (exists made,
       new_string_utf (nul_prefix text) = Some made /\
       str = unused_nonnull (jstrings w) /\
       w' = mkWorld (<[jlong_to_ptr nativePtr := e']> (native_heap w))
              (<[str := made]> (jstrings w))
              (jfloatArrays w) (utf_chars w) (float_elems w)
              (trace w ++ called ++ [EvNewStringUTF (nul_prefix text) str])) \/
    (str = 0 /\
     w' = mkWorld (<[jlong_to_ptr nativePtr := e']> (native_heap w))
            (jstrings w) (jfloatArrays w) (utf_chars w) (float_elems w)
            (trace w ++ called ++ [EvRefused (ReqNewStringUTF (nul_prefix text))])).
Proof.
  rewrite transcribeFile_outcome.
  destruct (jstrings w !! waveFile) as [path|] eqn:Hs; [|done].
  destruct (grants _ _); [|done].
  destruct (native_heap w !! jlong_to_ptr nativePtr) as [e|] eqn:He; [|done].
  destruct (eng_transcribeFile _ _) as [[e' text]|] eqn:Ht; [|done].
  cbn zeta.
  destruct (new_string_utf (nul_prefix text)) as [made|] eqn:Hm; [|done].
  destruct (grants _ (ReqNewStringUTF _)).
  - intros [= <- <-]. exists e, path, e', text.
    split; [done|]. split; [done|]. split; [done|].
    left. exists made. split; [done|]. split; [done|].
    by rewrite <- app_assoc.
  - intros [= <- <-]. exists e, path, e', text.
    split; [done|]. split; [done|]. split; [done|].
    right. split; [done|]. by rewrite <- app_assoc.
Qed.

(** ** Borrows *)

(** C9. Whenever [loadModel], [transcribeBuffer] or [transcribeFile]
    returns, the one string or array buffer it borrowed from the JNI
    environment was released once, after it was acquired, and no buffer
    is lent out that was not lent out before the call. *)
Theorem borrows_paired (w w' : World) :
  (forall (nativePtr modelPath isMultilingual : Z) (status : Z),
     Java_com_proactiveagentv2_engine_WhisperEngineNative_loadModel
       nativePtr modelPath isMultilingual w = Done status w' ->
     returns_borrows w w') /\
  (forall (nativePtr samples : Z) (str : Z),
     Java_com_proactiveagentv2_engine_WhisperEngineNative_transcribeBuffer
       nativePtr samples w = Done str w' ->
     returns_borrows w w') /\
  (forall (nativePtr waveFile : Z) (str : Z),
     Java_com_proactiveagentv2_engine_WhisperEngineNative_transcribeFile
       nativePtr waveFile w = Done str w' ->
     returns_borrows w w').
Proof.
  repeat split.
  - intros nativePtr modelPath isMultilingual status Hrun.
    apply loadModel_returned in Hrun as (e & path & e' & _ & _ & _ & ->).
    eexists _, (EvGetStringUTFChars modelPath _),
      (EvReleaseStringUTFChars modelPath _), modelPath, _.
    cbn. rewrite !Z.eqb_refl.
    repeat split. by eexists [], [_], [].
  - intros nativePtr samples str Hrun.
    apply transcribeBuffer_returned_any in Hrun
      as (e & xs & e' & text & _ & _ & _ & [(made & _ & _ & ->)|(_ & ->)]).
    all: eexists _, (EvGetFloatArrayElements samples _),
      (EvReleaseFloatArrayElements samples _ JNI_ABORT), samples, _.
    all: cbn; rewrite !Z.eqb_refl.
    all: repeat split; by eexists [_], [_], [_; _].
  - intros nativePtr waveFile str Hrun.
    apply transcribeFile_returned_any in Hrun
      as (e & path & e' & text & _ & _ & _ & [(made & _ & _ & ->)|(_ & ->)]).
    all: eexists _, (EvGetStringUTFChars waveFile _),
      (EvReleaseStringUTFChars waveFile _), waveFile, _.
    all: cbn; rewrite !Z.eqb_refl.
    all: repeat split; by eexists [], [_], [_].
Qed.

(** ** The engines that are live *)

(** X6. The set of live engines changes only through
    [createTFLiteEngine], which adds the one new address, and
    [freeModel], which removes the address of its handle; [loadModel],
    [transcribeBuffer] and [transcribeFile] keep it. *)
Theorem live_engines (w w' : World) :
  (forall handle : Z,
     Java_com_proactiveagentv2_engine_WhisperEngineNative_createTFLiteEngine w
     = Done handle w' ->
     jlong_to_ptr handle ∉ dom (native_heap w) /\
     dom (native_heap w') = {[jlong_to_ptr handle]} ∪ dom (native_heap w)) /\
  (forall (nativePtr : Z) (u : unit),
     Java_com_proactiveagentv2_engine_WhisperEngineNative_freeModel nativePtr w
     = Done u w' ->
     jlong_to_ptr nativePtr ∈ dom (native_heap w) /\
     dom (native_heap w') = dom (native_heap w) ∖ {[jlong_to_ptr nativePtr]}) /\
  (forall nativePtr modelPath isMultilingual status : Z,
     Java_com_proactiveagentv2_engine_WhisperEngineNative_loadModel
       nativePtr modelPath isMultilingual w = Done status w' ->
     dom (native_heap w') = dom (native_heap w)) /\
  (forall nativePtr samples str : Z,
     Java_com_proactiveagentv2_engine_WhisperEngineNative_transcribeBuffer
       nativePtr samples w = Done str w' ->
     dom (native_heap w') = dom (native_heap w)) /\
  (forall nativePtr waveFile str : Z,
     Java_com_proactiveagentv2_engine_WhisperEngineNative_transcribeFile
       nativePtr waveFile w = Done str w' ->
     dom (native_heap w') = dom (native_heap w)).
Proof.
  split; [|split; [|split; [|split]]].
  - intros handle. rewrite createTFLiteEngine_run.
    destruct (operator_new _) as [p|] eqn:Hp; [|done].
    intros [= <- <-].
    pose proof (operator_new_fresh _ _ Hp) as Hfresh.
    apply operator_new_range in Hp.
    rewrite jlong_to_ptr_to_jlong by lia. cbn.
    split; [done|apply dom_insert_L].
  - intros nativePtr u Hrun.
    apply freeModel_returned in Hrun as (e & e' & He & _ & ->).
    cbn. split; [by apply elem_of_dom_2 in He|apply dom_delete_L].
  - intros nativePtr modelPath isMultilingual status Hrun.
    apply loadModel_returned in Hrun as (e & path & e' & He & _ & _ & ->).
    cbn. rewrite dom_insert_L. apply elem_of_dom_2 in He. set_solver.
  - intros nativePtr samples str Hrun.
    apply transcribeBuffer_returned_any in Hrun
      as (e & xs & e' & text & He & _ & _ & [(made & _ & _ & ->)|(_ & ->)]).
    all: cbn; rewrite dom_insert_L; apply elem_of_dom_2 in He; set_solver.
  - intros nativePtr waveFile str Hrun.
    apply transcribeFile_returned_any in Hrun
      as (e & path & e' & text & He & _ & _ & [(made & _ & _ & ->)|(_ & ->)]).
    all: cbn; rewrite dom_insert_L; apply elem_of_dom_2 in He; set_solver.
Qed.

(** X7. Engines stay at addresses [operator new] can return: when all
    live engines sit at non-null addresses within 64 bits, they still do
    after any call of the bridge. *)
Theorem allocated_addresses_kept (w w' : World) :
  allocated_addresses w ->
  (forall handle : Z,
     Java_com_proactiveagentv2_engine_WhisperEngineNative_createTFLiteEngine w
     = Done handle w' -> allocated_addresses w') /\
  (forall (nativePtr : Z) (u : unit),
     Java_com_proactiveagentv2_engine_WhisperEngineNative_freeModel nativePtr w
     = Done u w' -> allocated_addresses w') /\
  (forall nativePtr modelPath isMultilingual status : Z,
     Java_com_proactiveagentv2_engine_WhisperEngineNative_loadModel
       nativePtr modelPath isMultilingual w = Done status w' ->
     allocated_addresses w') /\
  (forall nativePtr samples str : Z,
     Java_com_proactiveagentv2_engine_WhisperEngineNative_transcribeBuffer
       nativePtr samples w = Done str w' -> allocated_addresses w') /\
  (forall nativePtr waveFile str : Z,
     Java_com_proactiveagentv2_engine_WhisperEngineNative_transcribeFile
       nativePtr waveFile w = Done str w' -> allocated_addresses w').
Proof.
  intros Hw.
  assert (forall (a : Z) (e : engine) (m : gmap Z engine),
            (forall p, is_Some (native_heap w !! p) -> 0 < p < 2 ^ 64) ->
            m = native_heap w -> 0 < a < 2 ^ 64 ->
            forall p, is_Some (<[a := e]> m !! p) -> 0 < p < 2 ^ 64) as Hins.
  { intros a e m Hm -> Ha p. rewrite lookup_insert. case_decide; [by subst|auto]. }
  split; [|split; [|split; [|split]]].
  - intros handle. rewrite createTFLiteEngine_run.
    destruct (operator_new _) as [p|] eqn:Hp; [|done].
    intros [= <- <-]. apply operator_new_range in Hp.
    intros q. cbn. by apply Hins.
  - intros nativePtr u Hrun.
    apply freeModel_returned in Hrun as (e & e' & _ & _ & ->).
    intros q. cbn. rewrite lookup_delete. case_decide; [by intros []|apply Hw].
  - intros nativePtr modelPath isMultilingual status Hrun.
    apply loadModel_returned in Hrun as (e & path & e' & He & _ & _ & ->).
    intros q. cbn. by apply Hins; [| |apply Hw; rewrite He].
  - intros nativePtr samples str Hrun.
    apply transcribeBuffer_returned_any in Hrun
      as (e & xs & e' & text & He & _ & _ & [(made & _ & _ & ->)|(_ & ->)]).
    all: intros q; cbn; by apply Hins; [| |apply Hw; rewrite He].
  - intros nativePtr waveFile str Hrun.
    apply transcribeFile_returned_any in Hrun
      as (e & path & e' & text & He & _ & _ & [(made & _ & _ & ->)|(_ & ->)]).
    all: intros q; cbn; by apply Hins; [| |apply Hw; rewrite He].
Qed.

(** ** Flags and managed data *)

(** X10. [static_cast<bool>] makes every nonzero [jboolean] the flag
    true: [loadModel] with any nonzero value does what it does with
    [JNI_TRUE]. *)
Theorem loadModel_nonzero_flag (w : World) (nativePtr modelPath flag : Z) :
  flag <> 0 ->
  Java_com_proactiveagentv2_engine_WhisperEngineNative_loadModel
    nativePtr modelPath flag w =
  Java_com_proactiveagentv2_engine_WhisperEngineNative_loadModel
    nativePtr modelPath JNI_TRUE w.
Proof.
  intros Hflag.
  unfold Java_com_proactiveagentv2_engine_WhisperEngineNative_loadModel.
  assert (jboolean_to_bool flag = jboolean_to_bool JNI_TRUE) as ->; [|done].
  unfold jboolean_to_bool. by destruct (Z.eqb_spec flag 0).
Qed.

(** X11. The managed side is only ever added to: after any call of the
    bridge every managed array is what it was and every managed string
    that existed holds the bytes it held. *)
Theorem managed_data_kept (w w' : World) :
  (forall handle : Z,
     Java_com_proactiveagentv2_engine_WhisperEngineNative_createTFLiteEngine w
     = Done handle w' ->
     jfloatArrays w' = jfloatArrays w /\ jstrings w ⊆ jstrings w') /\
  (forall (nativePtr : Z) (u : unit),
     Java_com_proactiveagentv2_engine_WhisperEngineNative_freeModel nativePtr w
     = Done u w' ->
     jfloatArrays w' = jfloatArrays w /\ jstrings w ⊆ jstrings w') /\
  (forall nativePtr modelPath isMultilingual status : Z,
     Java_com_proactiveagentv2_engine_WhisperEngineNative_loadModel
       nativePtr modelPath isMultilingual w = Done status w' ->
     jfloatArrays w' = jfloatArrays w /\ jstrings w ⊆ jstrings w') /\
  (forall nativePtr samples str : Z,
     Java_com_proactiveagentv2_engine_WhisperEngineNative_transcribeBuffer
       nativePtr samples w = Done str w' ->
     jfloatArrays w' = jfloatArrays w /\ jstrings w ⊆ jstrings w') /\
  (forall nativePtr waveFile str : Z,
     Java_com_proactiveagentv2_engine_WhisperEngineNative_transcribeFile
       nativePtr waveFile w = Done str w' ->
     jfloatArrays w' = jfloatArrays w /\ jstrings w ⊆ jstrings w').
Proof.
  split; [|split; [|split; [|split]]].
  - intros handle. rewrite createTFLiteEngine_run.
    destruct (operator_new _); [|done]. by intros [= _ <-].
  - intros nativePtr u Hrun.
    by apply freeModel_returned in Hrun as (e & e' & _ & _ & ->).
  - intros nativePtr modelPath isMultilingual status Hrun.
    by apply loadModel_returned in Hrun as (e & path & e' & _ & _ & _ & ->).
  - intros nativePtr samples str Hrun.
    apply transcribeBuffer_returned_any in Hrun
      as (e & xs & e' & text & _ & _ & _ & [(made & _ & -> & ->)|(_ & ->)]).
    + cbn. split; [done|]. apply insert_subseteq, unused_nonnull_unused.
    + done.
  - intros nativePtr waveFile str Hrun.
    apply transcribeFile_returned_any in Hrun
      as (e & path & e' & text & _ & _ & _ & [(made & _ & -> & ->)|(_ & ->)]).
    + cbn. split; [done|]. apply insert_subseteq, unused_nonnull_unused.
    + done.
Qed.

End AnyPlatform.
(** ** On a platform with ample memory

    From here on the platform is [ample_platform]: every JNI call and the
    vector constructor find the memory they ask for, and [NewStringUTF]
    takes the bytes it is given. *)

Local Existing Instance ample_platform.

Section Properties.
Context {E : EngineModel} {A : Allocator}.

(** ** What each exported function computes *)

Lemma loadModel_run (w : World) (nativePtr modelPath isMultilingual : Z)
    (e : engine) (path : string) :
  native_heap w !! jlong_to_ptr nativePtr = Some e ->
  jstrings w !! modelPath = Some path ->
  Java_com_proactiveagentv2_engine_WhisperEngineNative_loadModel
    nativePtr modelPath isMultilingual w =
  match eng_loadModel e (nul_prefix path) (jboolean_to_bool isMultilingual) with
  | Some (e', result) =>
      let chars := unused_nonnull (utf_chars w) in
      Done result
        (mkWorld (<[jlong_to_ptr nativePtr := e']> (native_heap w))
           (jstrings w) (jfloatArrays w) (utf_chars w) (float_elems w)
           (trace w ++
              [EvGetStringUTFChars modelPath chars;
               EvLoadModel (jlong_to_ptr nativePtr) (nul_prefix path)
                 (jboolean_to_bool isMultilingual) result;
               EvReleaseStringUTFChars modelPath chars]))
  | None => Undefined
  end.
Proof.
  intros He Hs. rewrite loadModel_outcome, Hs, He. reflexivity.
Qed.

Lemma transcribeFile_run (w : World) (nativePtr waveFile : Z)
    (e : engine) (path : string) :
  native_heap w !! jlong_to_ptr nativePtr = Some e ->
  jstrings w !! waveFile = Some path ->
  Java_com_proactiveagentv2_engine_WhisperEngineNative_transcribeFile
    nativePtr waveFile w =
  match eng_transcribeFile e (nul_prefix path) with
  | Some (e', result) =>
      let chars := unused_nonnull (utf_chars w) in
      let str := unused_nonnull (jstrings w) in
      Done str
        (mkWorld (<[jlong_to_ptr nativePtr := e']> (native_heap w))
           (<[str := nul_prefix result]> (jstrings w))
           (jfloatArrays w) (utf_chars w) (float_elems w)
           (trace w ++
              [EvGetStringUTFChars waveFile chars;
               EvTranscribeFile (jlong_to_ptr nativePtr) (nul_prefix path) result;
               EvReleaseStringUTFChars waveFile chars;
               EvNewStringUTF (nul_prefix result) str]))
  | None => Undefined
  end.
Proof.
  intros He Hs. rewrite transcribeFile_outcome, Hs, He.
  cbn [grants new_string_utf ample_platform].
  destruct (eng_transcribeFile e (nul_prefix path)) as [[e' result]|]; [|done].
  cbn zeta. by rewrite <- app_assoc.
Qed.

Lemma transcribeBuffer_run (w : World) (nativePtr samples : Z)
    (e : engine) (xs : list jfloat) :
  native_heap w !! jlong_to_ptr nativePtr = Some e ->
  jfloatArrays w !! samples = Some xs ->
  Java_com_proactiveagentv2_engine_WhisperEngineNative_transcribeBuffer
    nativePtr samples w =
  match eng_transcribeBuffer e xs with
  | Some (e', result) =>
      let elems := unused_nonnull (float_elems w) in
      let str := unused_nonnull (jstrings w) in
      Done str
        (mkWorld (<[jlong_to_ptr nativePtr := e']> (native_heap w))
           (<[str := nul_prefix result]> (jstrings w))
           (jfloatArrays w) (utf_chars w) (float_elems w)
           (trace w ++
              [EvGetArrayLength samples (Z.of_nat (length xs));
               EvGetFloatArrayElements samples elems;
               EvVectorCopy elems (Z.of_nat (length xs)) xs;
               EvReleaseFloatArrayElements samples elems JNI_ABORT;
               EvTranscribeBuffer (jlong_to_ptr nativePtr) xs result;
               EvNewStringUTF (nul_prefix result) str]))
  | None => Undefined
  end.
Proof.
  intros He Ha. rewrite transcribeBuffer_outcome, Ha.
  cbn [grants new_string_utf ample_platform]. cbn zeta.
  rewrite orb_true_r, He.
  destruct (eng_transcribeBuffer e xs) as [[e' result]|]; [|done].
  by rewrite <- app_assoc.
Qed.



(** A handle that does not point to a live engine: the call through the
    pointer has undefined behaviour. *)
Lemma loadModel_dead (w : World) (nativePtr modelPath isMultilingual : Z) :
  native_heap w !! jlong_to_ptr nativePtr = None ->
  Java_com_proactiveagentv2_engine_WhisperEngineNative_loadModel
    nativePtr modelPath isMultilingual w = Undefined.
Proof.
  intros He. rewrite loadModel_outcome.
  destruct (jstrings w !! modelPath); [|done].
  cbn [grants ample_platform]. by rewrite He.
Qed.

Lemma transcribeFile_dead (w : World) (nativePtr waveFile : Z) :
  native_heap w !! jlong_to_ptr nativePtr = None ->
  Java_com_proactiveagentv2_engine_WhisperEngineNative_transcribeFile
    nativePtr waveFile w = Undefined.
Proof.
  intros He. rewrite transcribeFile_outcome.
  destruct (jstrings w !! waveFile); [|done].
  cbn [grants ample_platform]. by rewrite He.
Qed.

Lemma transcribeBuffer_dead (w : World) (nativePtr samples : Z) :
  native_heap w !! jlong_to_ptr nativePtr = None ->
  Java_com_proactiveagentv2_engine_WhisperEngineNative_transcribeBuffer
    nativePtr samples w = Undefined.
Proof.
  intros He. rewrite transcribeBuffer_outcome.
  destruct (jfloatArrays w !! samples); [|done].
  cbn [grants ample_platform]. cbn zeta. by rewrite orb_true_r, He.
Qed.


(** A reference that is no managed string or array: the JNI call has
    undefined behaviour. *)
Lemma loadModel_bad_string (w : World) (nativePtr modelPath isMultilingual : Z) :
  jstrings w !! modelPath = None ->
  Java_com_proactiveagentv2_engine_WhisperEngineNative_loadModel
    nativePtr modelPath isMultilingual w = Undefined.
Proof. intros Hs. by rewrite loadModel_outcome, Hs. Qed.

Lemma transcribeFile_bad_string (w : World) (nativePtr waveFile : Z) :
  jstrings w !! waveFile = None ->
  Java_com_proactiveagentv2_engine_WhisperEngineNative_transcribeFile
    nativePtr waveFile w = Undefined.
Proof. intros Hs. by rewrite transcribeFile_outcome, Hs. Qed.

Lemma transcribeBuffer_bad_array (w : World) (nativePtr samples : Z) :
  jfloatArrays w !! samples = None ->
  Java_com_proactiveagentv2_engine_WhisperEngineNative_transcribeBuffer
    nativePtr samples w = Undefined.
Proof. intros Ha. by rewrite transcribeBuffer_outcome, Ha. Qed.

(** ** What a call that returned must have done *)


Lemma transcribeBuffer_returned (w w' : World) (nativePtr samples : Z) (str : Z) :
  Java_com_proactiveagentv2_engine_WhisperEngineNative_transcribeBuffer
    nativePtr samples w = Done str w' ->
  exists e xs e' text,
    native_heap w !! jlong_to_ptr nativePtr = Some e /\
    jfloatArrays w !! samples = Some xs /\
    eng_transcribeBuffer e xs = Some (e', text) /\
    str = unused_nonnull (jstrings w) /\
    w' = mkWorld (<[jlong_to_ptr nativePtr := e']> (native_heap w))
           (<[str := nul_prefix text]> (jstrings w))
           (jfloatArrays w) (utf_chars w) (float_elems w)
           (trace w ++
              [EvGetArrayLength samples (Z.of_nat (length xs));
               EvGetFloatArrayElements samples (unused_nonnull (float_elems w));
               EvVectorCopy (unused_nonnull (float_elems w)) (Z.of_nat (length xs)) xs;
               EvReleaseFloatArrayElements samples (unused_nonnull (float_elems w))
                 JNI_ABORT;
               EvTranscribeBuffer (jlong_to_ptr nativePtr) xs text;
               EvNewStringUTF (nul_prefix text) str]).
Proof.
  destruct (native_heap w !! jlong_to_ptr nativePtr) as [e|] eqn:He;
    [|by rewrite transcribeBuffer_dead].
  destruct (jfloatArrays w !! samples) as [xs|] eqn:Ha;
    [|by rewrite transcribeBuffer_bad_array].
  rewrite (transcribeBuffer_run w nativePtr samples e xs He Ha).
  destruct (eng_transcribeBuffer _ _) as [[e' text]|] eqn:Ht; [|done].
  cbn. intros [= <- <-]. by exists e, xs, e', text.
Qed.

Lemma transcribeFile_returned (w w' : World) (nativePtr waveFile : Z) (str : Z) :
  Java_com_proactiveagentv2_engine_WhisperEngineNative_transcribeFile
    nativePtr waveFile w = Done str w' ->
  exists e path e' text,
    native_heap w !! jlong_to_ptr nativePtr = Some e /\
    jstrings w !! waveFile = Some path /\
    eng_transcribeFile e (nul_prefix path) = Some (e', text) /\
    str = unused_nonnull (jstrings w) /\
    w' = mkWorld (<[jlong_to_ptr nativePtr := e']> (native_heap w))
           (<[str := nul_prefix text]> (jstrings w))
           (jfloatArrays w) (utf_chars w) (float_elems w)
           (trace w ++
              [EvGetStringUTFChars waveFile (unused_nonnull (utf_chars w));
               EvTranscribeFile (jlong_to_ptr nativePtr) (nul_prefix path) text;
               EvReleaseStringUTFChars waveFile (unused_nonnull (utf_chars w));
               EvNewStringUTF (nul_prefix text) str]).
Proof.
  destruct (native_heap w !! jlong_to_ptr nativePtr) as [e|] eqn:He;
    [|by rewrite transcribeFile_dead].
  destruct (jstrings w !! waveFile) as [path|] eqn:Hs;
    [|by rewrite transcribeFile_bad_string].
  rewrite (transcribeFile_run w nativePtr waveFile e path He Hs).
  destruct (eng_transcribeFile _ _) as [[e' text]|] eqn:Ht; [|done].
  cbn. intros [= <- <-]. by exists e, path, e', text.
Qed.


(** ** Managed strings stay modified UTF-8 *)

(** The strings the bridge creates come out of [NewStringUTF], which
    stops at the first NUL: no call of the bridge puts a NUL into a
    managed string. *)
Lemma modified_utf8_preserved (w w' : World) :
  modified_utf8 w ->
  (forall handle,
     Java_com_proactiveagentv2_engine_WhisperEngineNative_createTFLiteEngine w
     = Done handle w' -> modified_utf8 w') /\
  (forall nativePtr modelPath isMultilingual status,
     Java_com_proactiveagentv2_engine_WhisperEngineNative_loadModel
       nativePtr modelPath isMultilingual w = Done status w' -> modified_utf8 w') /\
  (forall nativePtr u,
     Java_com_proactiveagentv2_engine_WhisperEngineNative_freeModel nativePtr w
     = Done u w' -> modified_utf8 w') /\
  (forall nativePtr samples str,
     Java_com_proactiveagentv2_engine_WhisperEngineNative_transcribeBuffer
       nativePtr samples w = Done str w' -> modified_utf8 w') /\
  (forall nativePtr waveFile str,
     Java_com_proactiveagentv2_engine_WhisperEngineNative_transcribeFile
       nativePtr waveFile w = Done str w' -> modified_utf8 w').
Proof.
  intros Hutf. repeat split.
  - intros handle. rewrite createTFLiteEngine_run.
    destruct (operator_new _); [|done]. by intros [= _ <-].
  - intros nativePtr modelPath isMultilingual status Hrun.
    by apply loadModel_returned in Hrun as (e & path & e' & _ & _ & _ & ->).
  - intros nativePtr u Hrun.
    by apply freeModel_returned in Hrun as (e & e' & _ & _ & ->).
  - intros nativePtr samples str Hrun.
    apply transcribeBuffer_returned in Hrun
      as (e & xs & e' & text & _ & _ & _ & _ & ->).
    apply map_Forall_insert_2; [apply nul_free_nul_prefix|exact Hutf].
  - intros nativePtr waveFile str Hrun.
    apply transcribeFile_returned in Hrun
      as (e & path & e' & text & _ & _ & _ & _ & ->).
    apply map_Forall_insert_2; [apply nul_free_nul_prefix|exact Hutf].
Qed.

(** ** The order of copy and release matters *)

(** Had the buffer been released before the vector was built, the copy
    of at least one element would read a buffer that is gone. *)
Lemma copy_after_release_undefined (w : World) (samples : Z) (xs : list jfloat) :
  jfloatArrays w !! samples = Some xs ->
  xs <> [] ->
  bind (GetFloatArrayElements samples)
    (fun samplesPtr =>
       bind (ReleaseFloatArrayElements samples samplesPtr JNI_ABORT)
         (fun _ => vector_from_range samplesPtr (Z.of_nat (length xs)))) w
  = Undefined.
Proof.
  intros Ha Hxs.
  erewrite bind_Done; [|by eapply GetFloatArrayElements_Done].
  erewrite bind_Done;
    [|eapply ReleaseFloatArrayElements_abort;
      [apply unused_nonnull_nonnull|apply lookup_insert_eq]].
  unfold vector_from_range. cbn.
  assert ((Z.of_nat (length xs) <? 0) = false) as -> by (apply Z.ltb_ge; lia).
  assert ((Z.of_nat (length xs) =? 0) = false) as ->
    by (apply Z.eqb_neq; destruct xs; [done|cbn; lia]).
  by rewrite unused_nonnull_nonnull, lookup_delete_eq.
Qed.

(** ** Loading a model *)

(** C1. For every live engine handle, model path and multilingual flag,
    [loadModel] hands exactly that path and that flag to the load
    routine of the engine the handle points to, in one call, and
    returns exactly the status the routine returned; when the routine
    does not return, neither does the bridge. *)
Theorem loadModel_pass_through (w : World) (nativePtr modelPath : Z)
    (isMultilingual : bool) (e : engine) (path : string) :
  modified_utf8 w ->
  native_heap w !! jlong_to_ptr nativePtr = Some e ->
  jstrings w !! modelPath = Some path ->
  match eng_loadModel e path isMultilingual with
  | Some (e', status) =>
      exists w' chars,
        Java_com_proactiveagentv2_engine_WhisperEngineNative_loadModel
          nativePtr modelPath (jboolean_of_bool isMultilingual) w
        = Done status w' /\
        native_heap w' = <[jlong_to_ptr nativePtr := e']> (native_heap w) /\
        trace w' = trace w ++
          [EvGetStringUTFChars modelPath chars;
           EvLoadModel (jlong_to_ptr nativePtr) path isMultilingual status;
           EvReleaseStringUTFChars modelPath chars]
  | None =>
      Java_com_proactiveagentv2_engine_WhisperEngineNative_loadModel
        nativePtr modelPath (jboolean_of_bool isMultilingual) w
      = Undefined
  end.
Proof.
  intros Hutf He Hs.
  rewrite (loadModel_run w nativePtr modelPath _ e path He Hs).
  rewrite jboolean_to_of_bool, (nul_prefix_nul_free path) by exact (Hutf _ _ Hs).
  destruct (eng_loadModel e path isMultilingual) as [[e' status]|]; [|done].
  by eexists _, _.
Qed.

(** ** Transcribing a buffer *)

(** C2. For every sample sequence, [transcribeBuffer] copies the whole
    sequence into a vector of its own, the copy is made before the
    buffer borrowed from the caller is released and before the engine
    is invoked, the engine is given the copy, and after the call the
    caller's array holds what it held before. *)
Theorem transcribeBuffer_copies_before_release (w : World)
    (nativePtr samples : Z) (e e' : engine) (xs : list jfloat) (text : string) :
  native_heap w !! jlong_to_ptr nativePtr = Some e ->
  jfloatArrays w !! samples = Some xs ->
  eng_transcribeBuffer e xs = Some (e', text) ->
  exists str w' elems delta,
    Java_com_proactiveagentv2_engine_WhisperEngineNative_transcribeBuffer
      nativePtr samples w = Done str w' /\
    trace w' = trace w ++ delta /\
    let copy := EvVectorCopy elems (Z.of_nat (length xs)) xs in
    let release := EvReleaseFloatArrayElements samples elems JNI_ABORT in
    let invoke := EvTranscribeBuffer (jlong_to_ptr nativePtr) xs text in
    happens_before (EvGetFloatArrayElements samples elems) copy delta /\
    happens_before copy release delta /\
    happens_before release invoke delta /\
    count_events is_release delta = 1%nat /\
    float_elems w !! elems = None /\
    float_elems w' = float_elems w /\
    jfloatArrays w' = jfloatArrays w /\
    jfloatArrays w' !! samples = Some xs.
Proof.
  intros He Ha Ht.
  rewrite (transcribeBuffer_run w nativePtr samples e xs He Ha), Ht. cbn.
  eexists _, _, (unused_nonnull (float_elems w)), _.
  split; [reflexivity|]. cbn. split; [reflexivity|].
  split; [by eexists [_], [], _|].
  split; [by eexists [_; _], [], _|].
  split; [by eexists [_; _; _], [], _|].
  split; [done|].
  split; [apply fresh_float_elems|done].
Qed.

(** ** The text returned to the caller *)


(** ** Creating and freeing an engine *)

(** C4. [createTFLiteEngine] never returns a failure: either the allocation
    fails and the process ends, or it returns a non-null handle to a
    newly constructed engine at an address where no engine was live;
    the handle differs from every handle that was live, and those stay
    live with their engines untouched. *)
Theorem createTFLiteEngine_fresh_handle (w : World) :
  match Java_com_proactiveagentv2_engine_WhisperEngineNative_createTFLiteEngine w with
  | Done handle w' =>
      handle <> 0 /\
      native_heap w !! jlong_to_ptr handle = None /\
      native_heap w' = <[jlong_to_ptr handle := eng_new]> (native_heap w) /\
      (forall (live : Z) (e : engine),
         native_heap w !! jlong_to_ptr live = Some e ->
         live <> handle /\ native_heap w' !! jlong_to_ptr live = Some e)
  | Abort => operator_new (dom (native_heap w)) = None
  | Undefined => False
  end.
Proof.
  rewrite createTFLiteEngine_run.
  destruct (operator_new _) as [p|] eqn:Hp; [|done].
  pose proof (operator_new_fresh _ _ Hp) as Hfresh.
  pose proof (operator_new_range _ _ Hp) as Hrange.
  apply not_elem_of_dom in Hfresh.
  cbn. rewrite jlong_to_ptr_to_jlong by lia.
  split; [by apply ptr_to_jlong_nonzero|].
  split; [done|]. split; [done|].
  intros live e Hlive.
  assert (jlong_to_ptr live <> p) as Hne by congruence.
  split.
  - intros ->. apply Hne, jlong_to_ptr_to_jlong. lia.
  - by rewrite lookup_insert_ne.
Qed.

(** C5. For every live handle, [freeModel] makes exactly two calls, in
    this order: [freeModel()] on the engine, which releases what the
    engine holds, then [delete] of the engine object; afterwards no
    engine lives at the handle. *)
Theorem freeModel_releases_then_deletes (w : World) (nativePtr : Z)
    (e e' : engine) :
  native_heap w !! jlong_to_ptr nativePtr = Some e ->
  eng_freeModel e = Some e' ->
  exists w',
    Java_com_proactiveagentv2_engine_WhisperEngineNative_freeModel nativePtr w
    = Done tt w' /\
    trace w' = trace w ++
      [EvFreeModel (jlong_to_ptr nativePtr); EvDelete (jlong_to_ptr nativePtr)] /\
    native_heap w' = delete (jlong_to_ptr nativePtr) (native_heap w) /\
    native_heap w' !! jlong_to_ptr nativePtr = None.
Proof.
  intros He Hf.
  rewrite (freeModel_run w nativePtr e He), Hf.
  eexists. split; [reflexivity|]. cbn.
  split; [done|]. split; [done|]. apply lookup_delete_eq.
Qed.

(** ** A failed load *)

(** C6. With an engine whose load routine answers a missing model with
    a nonzero status: for every live handle, [loadModel] with a path at
    which there is no model returns a nonzero status, the engine stays
    live at the handle, and a following [loadModel] with another path
    on the same handle reaches the engine and returns its status. *)
Theorem loadModel_missing_model_keeps_handle (on_disk : string -> bool)
    (w : World) (nativePtr modelPath isMultilingual : Z)
    (e : engine) (path : string) :
  load_rejects_missing_model on_disk ->
  modified_utf8 w ->
  native_heap w !! jlong_to_ptr nativePtr = Some e ->
  jstrings w !! modelPath = Some path ->
  on_disk path = false ->
  exists status e' w',
    Java_com_proactiveagentv2_engine_WhisperEngineNative_loadModel
      nativePtr modelPath isMultilingual w = Done status w' /\
    status <> 0 /\
    native_heap w' !! jlong_to_ptr nativePtr = Some e' /\
    dom (native_heap w') = dom (native_heap w) /\
    forall (corrected flag : Z) (path2 : string) (e'' : engine) (status2 : Z),
      jstrings w' !! corrected = Some path2 ->
      eng_loadModel e' path2 (jboolean_to_bool flag) = Some (e'', status2) ->
      exists w'',
        Java_com_proactiveagentv2_engine_WhisperEngineNative_loadModel
          nativePtr corrected flag w' = Done status2 w'' /\
        native_heap w'' !! jlong_to_ptr nativePtr = Some e''.
Proof.
  intros Hengine Hutf He Hs Hmissing.
  destruct (Hengine e path (jboolean_to_bool isMultilingual) Hmissing)
    as (e' & status & Hload & Hstatus).
  rewrite (loadModel_run w nativePtr modelPath _ e path He Hs).
  rewrite (nul_prefix_nul_free path) by exact (Hutf _ _ Hs).
  rewrite Hload. cbn.
  eexists status, e', _. split; [reflexivity|]. cbn.
  split; [done|]. split; [apply lookup_insert_eq|].
  split.
  { rewrite dom_insert_L. apply elem_of_dom_2 in He. set_solver. }
  intros corrected flag path2 e'' status2 Hs2 Hload2. cbn in Hs2.
  erewrite loadModel_run; cbn; [|apply lookup_insert_eq|exact Hs2].
  rewrite (nul_prefix_nul_free path2) by exact (Hutf _ _ Hs2).
  rewrite Hload2. cbn.
  eexists. split; [reflexivity|]. cbn. apply lookup_insert_eq.
Qed.

(** ** No samples *)




End Properties.
(** ** The bridge on the stub engine *)

Lemma stub_world_modified_utf8 (text : string) : modified_utf8 (stub_world text).
Proof.
  unfold modified_utf8, stub_world. cbn.
  repeat apply map_Forall_insert_2; try reflexivity.
  apply map_Forall_empty.
Qed.

Lemma stub_rejects_missing_model (text : string) :
  load_rejects_missing_model (H := stub_engine [tiny_model] text) on_stub_disk.
Proof.
  intros e path isMultilingual Hmissing. cbn.
  unfold on_stub_disk in Hmissing. rewrite Hmissing.
  by exists false, (-1).
Qed.


Lemma loadModel_pass_through_witness :
  exists w' chars,
    Java_com_proactiveagentv2_engine_WhisperEngineNative_loadModel
      4096 1 JNI_TRUE (stub_world "hello") = Done 0 w' /\
    native_heap w' = <[4096 := true]> (native_heap (stub_world "hello")) /\
    trace w' =
      [EvGetStringUTFChars 1 chars; EvLoadModel 4096 tiny_model true 0;
       EvReleaseStringUTFChars 1 chars].
Proof.
  apply (loadModel_pass_through (stub_world "hello") 4096 1 true true tiny_model).
  - apply stub_world_modified_utf8.
  - reflexivity.
  - reflexivity.
Defined.

Lemma transcribeBuffer_copies_before_release_witness :
  exists str w' elems delta,
    Java_com_proactiveagentv2_engine_WhisperEngineNative_transcribeBuffer
      4096 10 (stub_world "hello") = Done str w' /\
    trace w' = trace (stub_world "hello") ++ delta /\
    let xs : list jfloat := [1056964608; 3204448256; 0] in
    let copy := EvVectorCopy elems 3 xs in
    let release := EvReleaseFloatArrayElements 10 elems JNI_ABORT in
    let invoke := EvTranscribeBuffer 4096 xs "hello" in
    happens_before (EvGetFloatArrayElements 10 elems) copy delta /\
    happens_before copy release delta /\
    happens_before release invoke delta /\
    count_events is_release delta = 1%nat /\
    float_elems (stub_world "hello") !! elems = None /\
    float_elems w' = float_elems (stub_world "hello") /\
    jfloatArrays w' = jfloatArrays (stub_world "hello") /\
    jfloatArrays w' !! 10 = Some xs.
Proof.
  apply (transcribeBuffer_copies_before_release (stub_world "hello") 4096 10
           true true [1056964608; 3204448256; 0] "hello");
    reflexivity.
Defined.

(** A text with an accent, in modified UTF-8: c, a, f, U+00E9. *)
Lemma accented_text_decodes :
  mutf8_decode (mutf8_encode [99; 97; 102; 233]) = Some [99; 97; 102; 233].
Proof. reflexivity. Qed.

(** C3 as the spec words it, refuted, three times over.  The stub engine
    answers with the text [ab NUL cd]: the caller of [transcribeBuffer],
    and the caller of [transcribeFile], gets the string [ab].  It answers
    with a text that holds U+1F600 in four UTF-8 bytes: [NewStringUTF],
    which reads modified UTF-8, is handed bytes it cannot read.  It
    answers [hello] while [NewStringUTF] finds no memory: the caller gets
    a null string. *)
Lemma transcribe_text_not_verbatim :
  ~ (forall (E : EngineModel) (P : Platform) (w : World) (nativePtr samples : Z)
       (e e' : engine) (xs : list jfloat) (text : string),
       native_heap w !! jlong_to_ptr nativePtr = Some e ->
       jfloatArrays w !! samples = Some xs ->
       eng_transcribeBuffer e xs = Some (e', text) ->
       exists str w',
         Java_com_proactiveagentv2_engine_WhisperEngineNative_transcribeBuffer
           nativePtr samples w = Done str w' /\
         jstrings w' !! str = Some text) /\
  ~ (forall (E : EngineModel) (P : Platform) (w : World) (nativePtr waveFile : Z)
       (e e' : engine) (path text : string),
       modified_utf8 w ->
       native_heap w !! jlong_to_ptr nativePtr = Some e ->
       jstrings w !! waveFile = Some path ->
       eng_transcribeFile e path = Some (e', text) ->
       exists str w',
         Java_com_proactiveagentv2_engine_WhisperEngineNative_transcribeFile
           nativePtr waveFile w = Done str w' /\
         jstrings w' !! str = Some text) /\
  Java_com_proactiveagentv2_engine_WhisperEngineNative_transcribeBuffer
    (P := strict_platform decoder_reads_back) 4096 10
    (stub_world text_with_emoji) = Undefined /\
  Java_com_proactiveagentv2_engine_WhisperEngineNative_transcribeFile
    (P := strict_platform decoder_reads_back) 4096 2
    (stub_world text_with_emoji) = Undefined /\
  exists w',
    Java_com_proactiveagentv2_engine_WhisperEngineNative_transcribeBuffer
      (P := refusing_platform is_ReqNewStringUTF) 4096 10 (stub_world "hello")
    = Done 0 w' /\
    jstrings w' = jstrings (stub_world "hello").
Proof.
  split; [|split; [|split; [|split]]].
  - intros Hclaim.
    destruct (Hclaim (stub_engine [tiny_model] text_with_nul) ample_platform
                (stub_world text_with_nul) 4096 10 true true
                [1056964608; 3204448256; 0] text_with_nul eq_refl eq_refl eq_refl)
      as (str & w' & Hrun & Hstr).
    erewrite transcribeBuffer_run in Hrun by reflexivity.
    cbn in Hrun. injection Hrun as <- <-.
    cbn in Hstr. rewrite lookup_insert_eq in Hstr. discriminate Hstr.
  - intros Hclaim.
    destruct (Hclaim (stub_engine [tiny_model] text_with_nul) ample_platform
                (stub_world text_with_nul) 4096 2 true true
                "/sdcard/jfk.wav" text_with_nul
                (stub_world_modified_utf8 _) eq_refl eq_refl eq_refl)
      as (str & w' & Hrun & Hstr).
    erewrite transcribeFile_run in Hrun by reflexivity.
    cbn in Hrun. injection Hrun as <- <-.
    cbn in Hstr. rewrite lookup_insert_eq in Hstr. discriminate Hstr.
  - rewrite transcribeBuffer_outcome. reflexivity.
  - rewrite transcribeFile_outcome. reflexivity.
  - eexists. split; [rewrite transcribeBuffer_outcome; reflexivity|reflexivity].
Qed.

Lemma transcribe_text_verbatim_modified_utf8_witness :
  let text := mutf8_encode [99; 97; 102; 233] in
  (exists str w',
     Java_com_proactiveagentv2_engine_WhisperEngineNative_transcribeBuffer
       (P := strict_platform decoder_reads_back) 4096 10 (stub_world text)
     = Done str w' /\
     str <> 0 /\
     jstrings w' !! str = Some text) /\
  (exists str w',
     Java_com_proactiveagentv2_engine_WhisperEngineNative_transcribeFile
       (P := strict_platform decoder_reads_back) 4096 2 (stub_world text)
     = Done str w' /\
     str <> 0 /\
     jstrings w' !! str = Some text).
Proof.
  intros text.
  destruct (transcribe_text_verbatim_modified_utf8
              (P := strict_platform decoder_reads_back)
              (stub_world text) 4096 true text [99; 97; 102; 233]
              (fun _ _ => eq_refl) eq_refl accented_text_decodes)
    as [Hbuffer Hfile].
  split.
  - apply (Hbuffer 10 [1056964608; 3204448256; 0] true); reflexivity.
  - apply (Hfile 2 "/sdcard/jfk.wav" true);
      [apply stub_world_modified_utf8 | reflexivity | reflexivity].
Defined.


Lemma freeModel_releases_then_deletes_witness :
  exists w',
    Java_com_proactiveagentv2_engine_WhisperEngineNative_freeModel
      4096 (stub_world "hello") = Done tt w' /\
    trace w' = [EvFreeModel 4096; EvDelete 4096] /\
    native_heap w' = delete 4096 (native_heap (stub_world "hello")) /\
    native_heap w' !! 4096 = None.
Proof.
  apply (freeModel_releases_then_deletes (stub_world "hello") 4096 true false);
    reflexivity.
Defined.

Lemma loadModel_missing_model_keeps_handle_witness :
  exists status e' w',
    Java_com_proactiveagentv2_engine_WhisperEngineNative_loadModel
      4096 3 JNI_FALSE (stub_world "hello") = Done status w' /\
    status <> 0 /\
    native_heap w' !! 4096 = Some e' /\
    dom (native_heap w') = dom (native_heap (stub_world "hello")) /\
    forall (corrected flag : Z) (path2 : string) (e'' : bool) (status2 : Z),
      jstrings w' !! corrected = Some path2 ->
      eng_loadModel e' path2 (jboolean_to_bool flag) = Some (e'', status2) ->
      exists w'',
        Java_com_proactiveagentv2_engine_WhisperEngineNative_loadModel
          4096 corrected flag w' = Done status2 w'' /\
        native_heap w'' !! 4096 = Some e''.
Proof.
  apply (loadModel_missing_model_keeps_handle on_stub_disk (stub_world "hello")
           4096 3 JNI_FALSE true "/sdcard/missing.tflite").
  - apply stub_rejects_missing_model.
  - apply stub_world_modified_utf8.
  - reflexivity.
  - reflexivity.
  - reflexivity.
Defined.


Lemma borrows_paired_witness :
  exists w',
    Java_com_proactiveagentv2_engine_WhisperEngineNative_transcribeBuffer
      4096 10 (stub_world "hello") = Done (unused_nonnull (jstrings (stub_world "hello"))) w' /\
    returns_borrows (stub_world "hello") w'.
Proof.
  eexists. split.
  - erewrite transcribeBuffer_run by reflexivity. reflexivity.
  - eapply (proj1 (proj2 (borrows_paired (P := ample_platform)
                             (stub_world "hello") _)) 4096 10).
    erewrite transcribeBuffer_run by reflexivity. reflexivity.
Defined.


(** ** Runs of the bridge on the stub *)

(** From creation to release: the handle is the first slot, the load
    succeeds, the text for no samples comes back, and at the end no
    engine is live and no buffer is lent out. *)
Example stub_session_runs :
  exists str w',
    stub_session "" (stub_start "") = Done (4096, 0, str) w' /\
    jstrings w' !! str = Some EmptyString /\
    native_heap w' = ∅ /\
    utf_chars w' = ∅ /\
    float_elems w' = ∅ /\
    jfloatArrays w' = jfloatArrays (stub_start "") /\
    length (trace w') = 12%nat.
Proof.
  eexists _, _. split; [vm_compute; reflexivity|].
  repeat split; vm_compute; reflexivity.
Qed.

(** With the first slot taken the next engine goes to the second. *)
Example create_next_slot :
  exists w',
    Java_com_proactiveagentv2_engine_WhisperEngineNative_createTFLiteEngine
      (A := slot_allocator) (stub_world "hello") = Done 4128 w' /\
    dom (native_heap w') = {[4096; 4128]}.
Proof.
  eexists. split; [vm_compute; reflexivity|]. vm_compute. reflexivity.
Qed.

(** A freed handle may come back: the allocator is free to use the
    storage again once its engine is gone. *)
Example handle_reused_after_free :
  bind (Java_com_proactiveagentv2_engine_WhisperEngineNative_freeModel 4096)
    (fun _ => Java_com_proactiveagentv2_engine_WhisperEngineNative_createTFLiteEngine
                (A := slot_allocator))
    (stub_world "hello")
  = Done 4096
      (mkWorld (E := stub_engine [tiny_model] "hello")
         ({[4096 := false]} : gmap Z bool)
         (jstrings (stub_world "hello")) (jfloatArrays (stub_world "hello")) ∅ ∅
         [EvFreeModel 4096; EvDelete 4096; EvNew 4096]).
Proof. vm_compute. reflexivity. Qed.

(** A handle in the upper half of the address space is a negative
    [jlong], and comes back as the same address. *)
Example high_address_handle :
  ptr_to_jlong (2 ^ 63 + 4096) = - 2 ^ 63 + 4096 /\
  jlong_to_ptr (- 2 ^ 63 + 4096) = 2 ^ 63 + 4096.
Proof. split; reflexivity. Qed.

(** Any nonzero [jboolean] is true for the engine. *)
Example jboolean_nonzero : jboolean_to_bool 2 = true /\ jboolean_to_bool JNI_FALSE = false.
Proof. split; reflexivity. Qed.

(** ** Further properties of the bridge *)

Section Further.
Context {E : EngineModel} {A : Allocator}.

(** *** Handles *)

(** X1. The handle [createTFLiteEngine] returns is usable at once:
    [loadModel] on it calls the load routine of the newly constructed
    engine with the path and the flag, and returns its status. *)
Theorem createTFLiteEngine_then_loadModel (w w1 : World)
    (handle modelPath isMultilingual : Z) (path : string) :
  modified_utf8 w ->
  Java_com_proactiveagentv2_engine_WhisperEngineNative_createTFLiteEngine w
  = Done handle w1 ->
  jstrings w !! modelPath = Some path ->
  Java_com_proactiveagentv2_engine_WhisperEngineNative_loadModel
    handle modelPath isMultilingual w1 =
  match eng_loadModel eng_new path (jboolean_to_bool isMultilingual) with
  | Some (e', status) =>
      Done status
        (mkWorld (<[jlong_to_ptr handle := e']> (native_heap w))
           (jstrings w) (jfloatArrays w) (utf_chars w) (float_elems w)
           (trace w ++
              [EvNew (jlong_to_ptr handle);
               EvGetStringUTFChars modelPath (unused_nonnull (utf_chars w));
               EvLoadModel (jlong_to_ptr handle) path
                 (jboolean_to_bool isMultilingual) status;
               EvReleaseStringUTFChars modelPath (unused_nonnull (utf_chars w))]))
  | None => Undefined
  end.
Proof.
  intros Hutf Hcreate Hs.
  rewrite createTFLiteEngine_run in Hcreate.
  destruct (operator_new _) as [p|] eqn:Hp; [|done].
  injection Hcreate as <- <-.
  apply operator_new_range in Hp.
  rewrite jlong_to_ptr_to_jlong by lia.
  erewrite loadModel_run; cbn;
    [|rewrite jlong_to_ptr_to_jlong by lia; apply lookup_insert_eq|exact Hs].
  rewrite jlong_to_ptr_to_jlong by lia.
  rewrite (nul_prefix_nul_free path) by exact (Hutf _ _ Hs).
  destruct (eng_loadModel _ _ _) as [[e' status]|]; [|done].
  by rewrite insert_insert_eq, <- app_assoc.
Qed.

(** X2. The handle is a [jlong]: it lies in the signed 64-bit range, and
    read back as a pointer it is the address at which the engine was
    allocated. *)
Theorem createTFLiteEngine_handle_range (w w' : World) (handle : Z) :
  Java_com_proactiveagentv2_engine_WhisperEngineNative_createTFLiteEngine w
  = Done handle w' ->
  - 2 ^ 63 <= handle < 2 ^ 63 /\
  operator_new (dom (native_heap w)) = Some (jlong_to_ptr handle) /\
  ptr_to_jlong (jlong_to_ptr handle) = handle /\
  trace w' = trace w ++ [EvNew (jlong_to_ptr handle)].
Proof.
  rewrite createTFLiteEngine_run.
  destruct (operator_new _) as [p|] eqn:Hp; [|done].
  intros [= <- <-]. apply operator_new_range in Hp.
  rewrite jlong_to_ptr_to_jlong by lia. cbn.
  split; [|done].
  unfold ptr_to_jlong. destruct (Z.ltb_spec p (2 ^ 63)); lia.
Qed.

(** X3. Creating an engine and freeing it again leaves the native heap as
    it was; the three calls made are the allocation, [freeModel()] and
    the deallocation, and nothing on the managed side changes. *)
Theorem createTFLiteEngine_then_freeModel (w w1 : World) (handle : Z)
    (e' : engine) :
  Java_com_proactiveagentv2_engine_WhisperEngineNative_createTFLiteEngine w
  = Done handle w1 ->
  eng_freeModel eng_new = Some e' ->
  Java_com_proactiveagentv2_engine_WhisperEngineNative_freeModel handle w1 =
  Done tt
    (mkWorld (native_heap w) (jstrings w) (jfloatArrays w) (utf_chars w)
       (float_elems w)
       (trace w ++
          [EvNew (jlong_to_ptr handle); EvFreeModel (jlong_to_ptr handle);
           EvDelete (jlong_to_ptr handle)])).
Proof.
  intros Hcreate Hfree.
  rewrite createTFLiteEngine_run in Hcreate.
  destruct (operator_new _) as [p|] eqn:Hp; [|done].
  injection Hcreate as <- <-.
  pose proof (operator_new_fresh _ _ Hp) as Hfresh.
  apply not_elem_of_dom in Hfresh.
  apply operator_new_range in Hp.
  rewrite jlong_to_ptr_to_jlong by lia.
  erewrite freeModel_run; cbn;
    [|rewrite jlong_to_ptr_to_jlong by lia; apply lookup_insert_eq].
  rewrite Hfree, jlong_to_ptr_to_jlong by lia.
  by rewrite delete_insert_id, <- app_assoc.
Qed.

(** X4. After [freeModel] has returned, every call on the same handle has
    undefined behaviour, a second [freeModel] included. *)
Theorem use_after_freeModel (w w' : World) (nativePtr : Z) (u : unit) :
  Java_com_proactiveagentv2_engine_WhisperEngineNative_freeModel nativePtr w
  = Done u w' ->
  (forall modelPath isMultilingual : Z,
     Java_com_proactiveagentv2_engine_WhisperEngineNative_loadModel
       nativePtr modelPath isMultilingual w' = Undefined) /\
  (forall samples : Z,
     Java_com_proactiveagentv2_engine_WhisperEngineNative_transcribeBuffer
       nativePtr samples w' = Undefined) /\
  (forall waveFile : Z,
     Java_com_proactiveagentv2_engine_WhisperEngineNative_transcribeFile
       nativePtr waveFile w' = Undefined) /\
  Java_com_proactiveagentv2_engine_WhisperEngineNative_freeModel nativePtr w'
  = Undefined.
Proof.
  intros Hrun.
  apply freeModel_returned in Hrun as (e & e' & _ & _ & ->).
  assert (native_heap
            (mkWorld (delete (jlong_to_ptr nativePtr) (native_heap w))
               (jstrings w) (jfloatArrays w) (utf_chars w) (float_elems w)
               (trace w ++
                  [EvFreeModel (jlong_to_ptr nativePtr);
                   EvDelete (jlong_to_ptr nativePtr)]))
          !! jlong_to_ptr nativePtr = None) as Hdead
    by apply lookup_delete_eq.
  repeat split; intros.
  - by apply loadModel_dead.
  - by apply transcribeBuffer_dead.
  - by apply transcribeFile_dead.
  - by apply freeModel_dead.
Qed.



(** X8. A null handle: where engines sit at allocated addresses, handle 0
    points to no engine, and [loadModel], [transcribeBuffer],
    [transcribeFile] and [freeModel] on it have undefined behaviour. *)
Theorem null_handle_undefined (w : World) :
  allocated_addresses w ->
  (forall modelPath isMultilingual : Z,
     Java_com_proactiveagentv2_engine_WhisperEngineNative_loadModel
       0 modelPath isMultilingual w = Undefined) /\
  (forall samples : Z,
     Java_com_proactiveagentv2_engine_WhisperEngineNative_transcribeBuffer
       0 samples w = Undefined) /\
  (forall waveFile : Z,
     Java_com_proactiveagentv2_engine_WhisperEngineNative_transcribeFile
       0 waveFile w = Undefined) /\
  Java_com_proactiveagentv2_engine_WhisperEngineNative_freeModel 0 w = Undefined.
Proof.
  intros Hw.
  assert (native_heap w !! jlong_to_ptr 0 = None) as Hnull.
  { change (jlong_to_ptr 0) with 0.
    destruct (native_heap w !! 0) as [e|] eqn:He; [|done].
    assert (0 < 0 < 2 ^ 64) by (apply Hw; by rewrite He). lia. }
  repeat split; intros.
  - by apply loadModel_dead.
  - by apply transcribeBuffer_dead.
  - by apply transcribeFile_dead.
  - by apply freeModel_dead.
Qed.

(** *** Paths, flags and texts *)

(** X9. [transcribeFile] hands the path of the wave file to the engine as
    it is, in one call made while the characters are still borrowed: the
    engine call lies between [GetStringUTFChars] and
    [ReleaseStringUTFChars], and the result string is created last. *)
Theorem transcribeFile_pass_through (w : World) (nativePtr waveFile : Z)
    (e : engine) (path : string) :
  modified_utf8 w ->
  native_heap w !! jlong_to_ptr nativePtr = Some e ->
  jstrings w !! waveFile = Some path ->
  match eng_transcribeFile e path with
  | Some (e', text) =>
      exists str w' chars,
        Java_com_proactiveagentv2_engine_WhisperEngineNative_transcribeFile
          nativePtr waveFile w = Done str w' /\
        native_heap w' = <[jlong_to_ptr nativePtr := e']> (native_heap w) /\
        utf_chars w !! chars = None /\
        trace w' = trace w ++
          [EvGetStringUTFChars waveFile chars;
           EvTranscribeFile (jlong_to_ptr nativePtr) path text;
           EvReleaseStringUTFChars waveFile chars;
           EvNewStringUTF (nul_prefix text) str]
  | None =>
      Java_com_proactiveagentv2_engine_WhisperEngineNative_transcribeFile
        nativePtr waveFile w = Undefined
  end.
Proof.
  intros Hutf He Hs.
  rewrite (transcribeFile_run w nativePtr waveFile e path He Hs).
  rewrite (nul_prefix_nul_free path) by exact (Hutf _ _ Hs).
  destruct (eng_transcribeFile e path) as [[e' text]|]; [|done].
  eexists _, _, _. split; [reflexivity|]. cbn.
  split; [done|]. split; [apply fresh_utf_chars|done].
Qed.



(** X12. The string a transcription returns is a new one: its reference
    named no managed string before the call, it is the only string
    added, and it holds no NUL. *)
Theorem transcribe_returns_new_string (w w' : World) (nativePtr : Z) (str : Z) :
  (forall samples : Z,
     Java_com_proactiveagentv2_engine_WhisperEngineNative_transcribeBuffer
       nativePtr samples w = Done str w' ->
     jstrings w !! str = None /\
     exists bytes,
       jstrings w' = <[str := bytes]> (jstrings w) /\ nul_free bytes = true) /\
  (forall waveFile : Z,
     Java_com_proactiveagentv2_engine_WhisperEngineNative_transcribeFile
       nativePtr waveFile w = Done str w' ->
     jstrings w !! str = None /\
     exists bytes,
       jstrings w' = <[str := bytes]> (jstrings w) /\ nul_free bytes = true).
Proof.
  split.
  - intros samples Hrun.
    apply transcribeBuffer_returned in Hrun
      as (e & xs & e' & text & _ & _ & _ & -> & ->).
    split; [apply unused_nonnull_unused|].
    exists (nul_prefix text). split; [done|apply nul_free_nul_prefix].
  - intros waveFile Hrun.
    apply transcribeFile_returned in Hrun
      as (e & path & e' & text & _ & _ & _ & -> & ->).
    split; [apply unused_nonnull_unused|].
    exists (nul_prefix text). split; [done|apply nul_free_nul_prefix].
Qed.

(** *** Calls in sequence *)


End Further.

(** *** The further properties on the stub engine *)

Lemma stub_world_allocated_addresses (text : string) :
  allocated_addresses (stub_world text).
Proof.
  intros p [e He]. cbn in He.
  apply lookup_singleton_Some in He as [<- _]. lia.
Qed.

Lemma createTFLiteEngine_then_loadModel_witness :
  exists w1 w2,
    Java_com_proactiveagentv2_engine_WhisperEngineNative_createTFLiteEngine
      (A := slot_allocator) (stub_start "hello") = Done 4096 w1 /\
    Java_com_proactiveagentv2_engine_WhisperEngineNative_loadModel
      4096 1 JNI_FALSE w1 = Done 0 w2 /\
    native_heap w2 !! 4096 = Some true.
Proof.
  eexists _, _. split; [vm_compute; reflexivity|].
  split.
  - rewrite (createTFLiteEngine_then_loadModel (A := slot_allocator)
               (stub_start "hello") _ 4096 1 JNI_FALSE tiny_model);
      [reflexivity
      |exact (stub_world_modified_utf8 "hello")
      |vm_compute; reflexivity
      |reflexivity].
  - reflexivity.
Defined.

Lemma createTFLiteEngine_handle_range_witness :
  exists w',
    Java_com_proactiveagentv2_engine_WhisperEngineNative_createTFLiteEngine
      (A := slot_allocator) (stub_world "hello") = Done 4128 w' /\
    - 2 ^ 63 <= 4128 < 2 ^ 63 /\
    trace w' = [EvNew 4128].
Proof.
  eexists. split; [vm_compute; reflexivity|].
  destruct (createTFLiteEngine_handle_range (A := slot_allocator)
              (stub_world "hello") _ 4128 ltac:(vm_compute; reflexivity))
    as (Hrange & _ & _ & Htrace).
  split; [exact Hrange|exact Htrace].
Defined.

Lemma createTFLiteEngine_then_freeModel_witness :
  exists w1,
    Java_com_proactiveagentv2_engine_WhisperEngineNative_createTFLiteEngine
      (A := slot_allocator) (stub_world "hello") = Done 4128 w1 /\
    Java_com_proactiveagentv2_engine_WhisperEngineNative_freeModel 4128 w1 =
    Done tt
      (mkWorld (native_heap (stub_world "hello")) (jstrings (stub_world "hello"))
         (jfloatArrays (stub_world "hello")) ∅ ∅
         [EvNew 4128; EvFreeModel 4128; EvDelete 4128]).
Proof.
  eexists. split; [vm_compute; reflexivity|].
  apply (createTFLiteEngine_then_freeModel (A := slot_allocator)
           (stub_world "hello") _ 4128 false);
    [vm_compute; reflexivity|reflexivity].
Defined.

Lemma use_after_freeModel_witness :
  exists w',
    Java_com_proactiveagentv2_engine_WhisperEngineNative_freeModel
      4096 (stub_world "hello") = Done tt w' /\
    Java_com_proactiveagentv2_engine_WhisperEngineNative_transcribeBuffer
      4096 10 w' = Undefined /\
    Java_com_proactiveagentv2_engine_WhisperEngineNative_freeModel 4096 w'
    = Undefined.
Proof.
  eexists. split; [vm_compute; reflexivity|].
  destruct (use_after_freeModel (stub_world "hello") _ 4096 tt
              ltac:(vm_compute; reflexivity))
    as (_ & Hbuffer & _ & Hfree).
  split; [apply Hbuffer|exact Hfree].
Defined.

Lemma live_engines_witness :
  exists w',
    Java_com_proactiveagentv2_engine_WhisperEngineNative_freeModel
      4096 (stub_pair "hello") = Done tt w' /\
    dom (native_heap w') = ({[4096; 4128]} : gset Z) ∖ {[4096]}.
Proof.
  eexists. split; [vm_compute; reflexivity|].
  lazymatch goal with
  | |- dom (native_heap ?w') = _ =>
      destruct (live_engines (A := slot_allocator) (P := ample_platform)
                  (stub_pair "hello") w')
        as (_ & Hfree & _)
  end.
  apply (Hfree 4096 tt). vm_compute. reflexivity.
Defined.

Lemma allocated_addresses_kept_witness :
  exists w',
    Java_com_proactiveagentv2_engine_WhisperEngineNative_createTFLiteEngine
      (A := slot_allocator) (stub_world "hello") = Done 4128 w' /\
    allocated_addresses w'.
Proof.
  eexists. split; [vm_compute; reflexivity|].
  lazymatch goal with
  | |- allocated_addresses ?w' =>
      destruct (allocated_addresses_kept (A := slot_allocator) (P := ample_platform)
                  (stub_world "hello") w' (stub_world_allocated_addresses "hello"))
        as (Hcreate & _)
  end.
  apply (Hcreate 4128). vm_compute. reflexivity.
Defined.

Lemma null_handle_undefined_witness :
  Java_com_proactiveagentv2_engine_WhisperEngineNative_transcribeBuffer
    0 10 (stub_world "hello") = Undefined /\
  Java_com_proactiveagentv2_engine_WhisperEngineNative_freeModel
    0 (stub_world "hello") = Undefined.
Proof.
  destruct (null_handle_undefined (stub_world "hello")
              (stub_world_allocated_addresses "hello"))
    as (_ & Hbuffer & _ & Hfree).
  split; [apply Hbuffer|exact Hfree].
Defined.

Lemma transcribeFile_pass_through_witness :
  exists str w' chars,
    Java_com_proactiveagentv2_engine_WhisperEngineNative_transcribeFile
      4096 2 (stub_world "hello") = Done str w' /\
    native_heap w' = <[4096 := true]> (native_heap (stub_world "hello")) /\
    utf_chars (stub_world "hello") !! chars = None /\
    trace w' =
      [EvGetStringUTFChars 2 chars;
       EvTranscribeFile 4096 "/sdcard/jfk.wav" "hello";
       EvReleaseStringUTFChars 2 chars;
       EvNewStringUTF "hello" str].
Proof.
  apply (transcribeFile_pass_through (stub_world "hello") 4096 2 true
           "/sdcard/jfk.wav").
  - apply stub_world_modified_utf8.
  - reflexivity.
  - reflexivity.
Defined.

Lemma loadModel_nonzero_flag_witness :
  Java_com_proactiveagentv2_engine_WhisperEngineNative_loadModel
    4096 1 2 (stub_world "hello") =
  Java_com_proactiveagentv2_engine_WhisperEngineNative_loadModel
    4096 1 JNI_TRUE (stub_world "hello").
Proof.
  apply (loadModel_nonzero_flag (P := ample_platform) (stub_world "hello") 4096 1 2). lia.
Defined.

Lemma managed_data_kept_witness :
  exists str w',
    Java_com_proactiveagentv2_engine_WhisperEngineNative_transcribeBuffer
      4096 10 (stub_world "hello") = Done str w' /\
    jfloatArrays w' = jfloatArrays (stub_world "hello") /\
    jstrings (stub_world "hello") ⊆ jstrings w'.
Proof.
  eexists _, _. split; [vm_compute; reflexivity|].
  lazymatch goal with
  | |- jfloatArrays ?w' = _ /\ _ =>
      destruct (managed_data_kept (A := slot_allocator) (P := ample_platform)
                  (stub_world "hello") w')
        as (_ & _ & _ & Hbuffer & _)
  end.
  eapply (Hbuffer 4096 10). vm_compute. reflexivity.
Defined.

Lemma transcribe_returns_new_string_witness :
  exists str w',
    Java_com_proactiveagentv2_engine_WhisperEngineNative_transcribeFile
      4096 2 (stub_world "hello") = Done str w' /\
    jstrings (stub_world "hello") !! str = None /\
    exists bytes,
      jstrings w' = <[str := bytes]> (jstrings (stub_world "hello")) /\
      nul_free bytes = true.
Proof.
  eexists _, _. split; [vm_compute; reflexivity|].
  lazymatch goal with
  | |- _ !! ?str = None /\ (exists bytes, jstrings ?w' = _ /\ _) =>
      destruct (transcribe_returns_new_string (stub_world "hello") w' 4096 str)
        as (_ & Hfile)
  end.
  apply (Hfile 2). vm_compute. reflexivity.
Defined.


